(** * Omniplex Newsroom: integrity ledger, freeze logic and journalism pipeline

    A shallow embedding of [octopus_parliament_only.py], [octopus_we333.py]
    and [journalism_pipeline.py], and the properties of the hash ledger, of
    freezing and escalation, and of the publication gate that hold of them.

    Conventions of the embedding
    - a Python [str] is a Rocq [string] holding its UTF-8 bytes, so that
      [data.encode()] is the identity on the representation;
    - a Python [dict] whose order is observable (iteration, [json.dumps]) is
      an association list with unique keys in insertion order; the hash
      store of [SHA256Verifier], which is only looked up and assigned, is a
      [gmap];
    - a method that mutates [self] takes the object state and returns the
      new one; a method that can raise returns an [outcome], which carries
      the state reached when the exception left the method;
    - [datetime.now()] reads a clock: a function from the number of readings
      made so far to the reading, with the counter kept in the state;
    - console output ([print], the [display_..._summary] methods) and
      [time.sleep] are not part of the model; [KeyboardInterrupt] is not
      either. *)

From Stdlib Require Import ZArith QArith Qcanon Ascii String List Lia.
From stdpp Require Import numbers countable gmap strings list.

Local Open Scope string_scope.
Local Open Scope Z_scope.

(** ** hashlib.sha256(...).hexdigest()  (FIPS 180-4) *)

Module Sha256.

Definition w32 (x : Z) : Z := Z.land x 0xffffffff.
Definition add32 (x y : Z) : Z := w32 (x + y).
Definition rotr (n x : Z) : Z :=
  w32 (Z.lor (Z.shiftr x n) (Z.shiftl x (32 - n))).
Definition shr (n x : Z) : Z := Z.shiftr x n.

Definition Ch (x y z : Z) : Z :=
  Z.lxor (Z.land x y) (Z.land (Z.lxor x 0xffffffff) z).
Definition Maj (x y z : Z) : Z :=
  Z.lxor (Z.lxor (Z.land x y) (Z.land x z)) (Z.land y z).
Definition Sigma0 (x : Z) : Z := Z.lxor (Z.lxor (rotr 2 x) (rotr 13 x)) (rotr 22 x).
Definition Sigma1 (x : Z) : Z := Z.lxor (Z.lxor (rotr 6 x) (rotr 11 x)) (rotr 25 x).
Definition sigma0 (x : Z) : Z := Z.lxor (Z.lxor (rotr 7 x) (rotr 18 x)) (shr 3 x).
Definition sigma1 (x : Z) : Z := Z.lxor (Z.lxor (rotr 17 x) (rotr 19 x)) (shr 10 x).

(** The constants are defined as the standard defines them: the first 32
    bits of the fractional parts of the cube roots (round constants) and of
    the square roots (initial hash value) of the first primes. *)
Definition primes : list Z :=
  [ 2; 3; 5; 7; 11; 13; 17; 19; 23; 29; 31; 37; 41; 43; 47; 53; 59; 61; 67;
    71; 73; 79; 83; 89; 97; 101; 103; 107; 109; 113; 127; 131; 137; 139; 149;
    151; 157; 163; 167; 173; 179; 181; 191; 193; 197; 199; 211; 223; 227;
    229; 233; 239; 241; 251; 257; 263; 269; 271; 277; 281; 283; 293; 307;
    311 ].

(** Largest [r] below [2 ^ bits] with [r ^ 3 <= x], one bit at a time. *)
Fixpoint cube_root (bits : nat) (x r : Z) : Z :=
  match bits with
  | O => r
  | S bits' =>
      let r' := r + Z.shiftl 1 (Z.of_nat bits') in
      cube_root bits' x (if r' * r' * r' <=? x then r' else r)
  end.

Definition K : list Z :=
  Eval vm_compute in map (fun p => w32 (cube_root 40 (Z.shiftl p 96) 0)) primes.

Definition H0 : list Z :=
  Eval vm_compute in map (fun p => w32 (Z.sqrt (Z.shiftl p 64))) (firstn 8 primes).

Definition bytes_of_string (s : string) : list Z :=
  map (fun c => Z.of_N (N_of_ascii c)) (list_ascii_of_string s).

(** Big-endian bytes of [x], [n] of them. *)
Fixpoint be_bytes (n : nat) (x : Z) : list Z :=
  match n with
  | O => []
  | S n' => Z.land (Z.shiftr x (8 * Z.of_nat n')) 0xff :: be_bytes n' x
  end.

Definition pad (msg : list Z) : list Z :=
  let len := Z.of_nat (length msg) in
  let zeros := Z.to_nat ((55 - len) mod 64) in
  msg ++ 0x80 :: repeat 0 zeros ++ be_bytes 8 (8 * len).

Fixpoint words (n : nat) (bs : list Z) : list Z :=
  match n, bs with
  | S n', a :: b :: c :: d :: rest =>
      (Z.shiftl a 24 + Z.shiftl b 16 + Z.shiftl c 8 + d) :: words n' rest
  | _, _ => []
  end.

Definition nthw (l : list Z) (i : nat) : Z := nth i l 0.

(** Extends the sixteen words of a block to the sixty-four of the message
    schedule; [t] is the index of the next word. *)
Fixpoint schedule (fuel : nat) (t : nat) (w : list Z) : list Z :=
  match fuel with
  | O => w
  | S fuel' =>
      let x := add32 (add32 (sigma1 (nthw w (t - 2))) (nthw w (t - 7)))
                     (add32 (sigma0 (nthw w (t - 15))) (nthw w (t - 16))) in
      schedule fuel' (S t) (w ++ [x])
  end.

Record regs := Regs { ra : Z; rb : Z; rc : Z; rd : Z; re : Z; rf : Z; rg : Z; rh : Z }.

Definition round (r : regs) (kw : Z * Z) : regs :=
  let '(k, w) := kw in
  let t1 := add32 (add32 (add32 (rh r) (Sigma1 (re r))) (Ch (re r) (rf r) (rg r)))
                  (add32 k w) in
  let t2 := add32 (Sigma0 (ra r)) (Maj (ra r) (rb r) (rc r)) in
  Regs (add32 t1 t2) (ra r) (rb r) (rc r) (add32 (rd r) t1) (re r) (rf r) (rg r).

Definition regs_of (h : list Z) : regs :=
  Regs (nthw h 0) (nthw h 1) (nthw h 2) (nthw h 3)
       (nthw h 4) (nthw h 5) (nthw h 6) (nthw h 7).

Definition compress (h : list Z) (block : list Z) : list Z :=
  let w := schedule 48 16 (words 16 block) in
  let r0 := regs_of h in
  let r := fold_left round (combine K w) r0 in
  [ add32 (ra r0) (ra r); add32 (rb r0) (rb r); add32 (rc r0) (rc r);
    add32 (rd r0) (rd r); add32 (re r0) (re r); add32 (rf r0) (rf r);
    add32 (rg r0) (rg r); add32 (rh r0) (rh r) ].

Fixpoint blocks (n : nat) (h : list Z) (bs : list Z) : list Z :=
  match n with
  | O => h
  | S n' => blocks n' (compress h (firstn 64 bs)) (skipn 64 bs)
  end.

Definition digest (msg : list Z) : list Z :=
  let p := pad msg in
  blocks (length p / 64)%nat H0 p.

Definition hex_digit (d : Z) : ascii :=
  if d <? 10 then ascii_of_N (Z.to_N (48 + d)) else ascii_of_N (Z.to_N (87 + d)).

Fixpoint hex_of_word (n : nat) (x : Z) : string :=
  match n with
  | O => EmptyString
  | S n' =>
      String (hex_digit (Z.land (Z.shiftr x (4 * Z.of_nat n')) 0xf)) (hex_of_word n' x)
  end.

Definition hexdigest (s : string) : string :=
  fold_right (fun w acc => hex_of_word 8 w ++ acc) EmptyString
             (digest (bytes_of_string s)).

End Sha256.

(** ** Python values, exceptions and the built-ins the scripts use *)

Module Py.

Inductive exn : Type :=
| KeyError (key : string)
| TypeError
| AttributeError
| ZeroDivisionError.

(** Result of an expression that may raise. *)
Inductive res (A : Type) : Type :=
| Ok (a : A)
| Err (e : exn).
Arguments Ok {A} a.
Arguments Err {A} e.

Definition rbind {A B : Type} (r : res A) (f : A -> res B) : res B :=
  match r with
  | Ok a => f a
  | Err e => Err e
  end.

(** The values that flow through the scripts.  Dictionaries have [str]
    keys.  A [str] is carried as its UTF-8 encoding, a [bytes] object as its
    bytes.  A finite [float] is carried as the rational it is; where a text
    is made of it, a rational that is no binary64 number stands for the
    float nearest to it, as a literal or a quotient of integers does in
    Python.  Infinities, NaN and the negative zero are not among the
    values. *)
#[local] Unset Elimination Schemes.
Inductive pyval : Type :=
| VNone
| VBool (b : bool)
| VInt (n : Z)
| VFloat (q : Q)
| VStr (s : string)
| VList (l : list pyval)
| VDict (d : list (string * pyval))
| VBytes (b : string).
#[local] Set Elimination Schemes.

Definition dict : Type := list (string * pyval).

(** *** Insertion-ordered dictionaries *)

Section Alist.
Context {V : Type}.

Fixpoint lookup (k : string) (d : list (string * V)) : option V :=
  match d with
  | [] => None
  | (k', v) :: d' => if String.eqb k k' then Some v else lookup k d'
  end.

(** [d[k] = v]: overwrite in place, or append a new key. *)
Fixpoint store (k : string) (v : V) (d : list (string * V)) : list (string * V) :=
  match d with
  | [] => [(k, v)]
  | (k', v') :: d' =>
      if String.eqb k k' then (k', v) :: d' else (k', v') :: store k v d'
  end.

Definition has_key (k : string) (d : list (string * V)) : bool :=
  match lookup k d with Some _ => true | None => false end.

Definition keys (d : list (string * V)) : list string := map fst d.

(** [d.get(k, dflt)] *)
Definition get (d : list (string * V)) (k : string) (dflt : V) : V :=
  match lookup k d with Some v => v | None => dflt end.

(** [d[k]] *)
Definition getitem (d : list (string * V)) (k : string) : res V :=
  match lookup k d with Some v => Ok v | None => Err (KeyError k) end.
End Alist.

(** *** Text *)

Definition digit_char (d : Z) : ascii := ascii_of_N (Z.to_N (48 + d)).

Fixpoint digits_go (fuel : nat) (n : Z) (acc : string) : string :=
  match fuel with
  | O => acc
  | S fuel' =>
      let acc' := String (digit_char (n mod 10)) acc in
      if n <? 10 then acc' else digits_go fuel' (n / 10) acc'
  end.

Definition digits (n : Z) : string :=
  digits_go (S (Z.to_nat (Z.log2 n))) n EmptyString.

(** [str(n)] for an [int] *)
Definition str_of_int (n : Z) : string :=
  if n <? 0 then "-" ++ digits (- n) else digits n.

(** [n] printed on at least [w] digits, as [%0wd] does for [0 <= n]. *)
Definition zero_pad (w : nat) (n : Z) : string :=
  let s := digits n in
  string_of_list_ascii (repeat "0"%char (w - String.length s)) ++ s.

(** *** [repr] of a [float]

    The shortest decimal that reads back as the same float, the nearest to it
    among the shortest; in exponent notation from 1e16 up and below 1e-4. *)

(** [num / den] rounded to an integer, halves to the even one. *)
Definition round_half_even (num den : Z) : Z :=
  let q := num / den in
  let r := num mod den in
  if 2 * r <? den then q
  else if den <? 2 * r then q + 1
  else if Z.even q then q else q + 1.

(** [b ^ e <= num / den] for positive [num] and [den]. *)
Definition ge_pow (b num den e : Z) : bool :=
  if 0 <=? e then den * b ^ e <=? num else den <=? num * b ^ (- e).

(** [(num / den) / b ^ e] as a quotient of integers. *)
Definition scaled (b num den e : Z) : Z * Z :=
  if 0 <=? e then (num, den * b ^ e) else (num * b ^ (- e), den).

(** [c * b ^ e] as a quotient of integers. *)
Definition times_pow (b c e : Z) : Z * Z :=
  if 0 <=? e then (c * b ^ e, 1) else (c, b ^ (- e)).

(** The binary64 float nearest to the positive rational [num / den], as
    a quotient: 53 bits of precision, no exponent below that of the
    subnormal numbers, halves to the even mantissa. *)
Definition nearest_float (num den : Z) : Z * Z :=
  let e0 := Z.log2 num - Z.log2 den in
  let e := if ge_pow 2 num den e0 then e0 else e0 - 1 in
  let u := Z.max (e - 52) (-1074) in
  let '(n, d) := scaled 2 num den u in
  times_pow 2 (round_half_even n d) u.

Definition same_quotient (x y : Z * Z) : bool :=
  fst x * snd y =? fst y * snd x.

(** The [k] with [10 ^ k <= num / den < 10 ^ (k + 1)], for a positive
    float: an estimate from below, from the binary logarithm, then at most
    four steps up. *)
Definition log10_floor (num den : Z) : Z :=
  let e0 := Z.log2 num - Z.log2 den in
  let k := (e0 - 1) * 30103 / 100000 - 1 in
  fold_left (fun k _ => if ge_pow 10 num den (k + 1) then k + 1 else k)
            (repeat tt 4) k.

(** The decimal of [n] digits for the float [fn / fd], whose decimal exponent
    is [k], when there is one that reads back as the float: as an integer
    and the power of ten it is to be multiplied with. *)
Definition digits_of_length (fn fd k n : Z) : option (Z * Z) :=
  let e := k - n + 1 in
  let '(a, b) := scaled 10 fn fd e in
  let lo := a / b in
  let r := a mod b in
  let reads_back c :=
    let '(cn, cd) := times_pow 10 c e in
    same_quotient (nearest_float cn cd) (fn, fd) in
  if r =? 0 then Some (lo, e)
  else
    let lo_ok := (0 <? lo) && reads_back lo in
    let hi_ok := reads_back (lo + 1) in
    let hi_nearer :=
      if b <? 2 * r then true else if 2 * r <? b then false else Z.odd lo in
    if lo_ok && hi_ok then Some (if hi_nearer then lo + 1 else lo, e)
    else if lo_ok then Some (lo, e)
    else if hi_ok then Some (lo + 1, e)
    else None.

Fixpoint shortest_go (fuel : nat) (fn fd k n : Z) : Z * Z :=
  match fuel with
  | O => (0, 0)
  | S fuel' =>
      match digits_of_length fn fd k n with
      | Some r => r
      | None => shortest_go fuel' fn fd k (n + 1)
      end
  end.

(** Seventeen digits always read back. *)
Definition shortest_digits (fn fd : Z) : Z * Z :=
  shortest_go 17 fn fd (log10_floor fn fd) 1.

Definition zeros (n : Z) : string :=
  string_of_list_ascii (repeat "0"%char (Z.to_nat n)).

Fixpoint strip_zeros_rev (l : list ascii) : list ascii :=
  match l with
  | "0"%char :: l' => strip_zeros_rev l'
  | _ => l
  end.

(** The digits [ds] with the decimal point after the first [decpt] of
    them, as [repr] writes them. *)
Definition float_text (ds : string) (decpt : Z) : string :=
  let len := Z.of_nat (String.length ds) in
  if (decpt <=? -4) || (16 <? decpt) then
    let e := decpt - 1 in
    let mantissa :=
      match ds with
      | String c (String c' rest) => String c ("." ++ String c' rest)
      | _ => ds
      end in
    mantissa ++ "e" ++ (if e <? 0 then "-" else "+") ++ zero_pad 2 (Z.abs e)
  else if decpt <=? 0 then "0." ++ zeros (- decpt) ++ ds
  else if decpt <? len then
    String.substring 0 (Z.to_nat decpt) ds ++ "."
      ++ String.substring (Z.to_nat decpt) (Z.to_nat (len - decpt)) ds
  else ds ++ zeros (decpt - len) ++ ".0".

(** The text of the float [q] stands for; [inf] is what is written for a
    float beyond the largest finite one ([repr] and [json.dumps] differ in
    that). *)
Definition float_text_of (inf : string) (q : Q) : string :=
  let n := Qnum q in
  let sign := if n <? 0 then "-" else EmptyString in
  if n =? 0 then "0.0"
  else
    let '(fn, fd) := nearest_float (Z.abs n) (Z.pos (Qden q)) in
    if fn =? 0 then sign ++ "0.0"
    else if ge_pow 2 fn fd 1024 then sign ++ inf
    else
      let '(d, e) := shortest_digits fn fd in
      let all := digits d in
      let ds := string_of_list_ascii
                  (rev (strip_zeros_rev (rev (list_ascii_of_string all)))) in
      sign ++ float_text ds (Z.of_nat (String.length all) + e).

(** [repr(x)] for a [float] *)
Definition float_repr (q : Q) : string := float_text_of "inf" q.

(** [json.dumps(x)] for a [float] *)
Definition json_float (q : Q) : string := float_text_of "Infinity" q.

Definition byte_of (c : ascii) : Z := Z.of_N (N_of_ascii c).

Definition is_continuation (c : ascii) : bool :=
  Z.land (byte_of c) 0xc0 =? 0x80.

(** The characters of a [str]: its UTF-8 bytes grouped by code point. *)
Fixpoint chars (s : string) : list string :=
  match s with
  | EmptyString => []
  | String c s' =>
      match chars s' with
      | String c' g :: gs =>
          if is_continuation c' then String c (String c' g) :: gs
          else String c EmptyString :: String c' g :: gs
      | gs => String c EmptyString :: gs
      end
  end.

Definition codepoint (g : string) : Z :=
  match g with
  | EmptyString => 0
  | String c rest =>
      let b := byte_of c in
      let lead :=
        if b <? 0x80 then b
        else if b <? 0xe0 then Z.land b 0x1f
        else if b <? 0xf0 then Z.land b 0x0f
        else Z.land b 0x07 in
      fold_left (fun acc x => acc * 64 + Z.land (byte_of x) 0x3f)
                (list_ascii_of_string rest) lead
  end.

Definition hex_digit (d : Z) : ascii :=
  if d <? 10 then ascii_of_N (Z.to_N (48 + d)) else ascii_of_N (Z.to_N (87 + d)).

Fixpoint hex (n : nat) (x : Z) : string :=
  match n with
  | O => EmptyString
  | S n' => String (hex_digit (Z.land (Z.shiftr x (4 * Z.of_nat n')) 0xf)) (hex n' x)
  end.

Fixpoint join (sep : string) (l : list string) : string :=
  match l with
  | [] => EmptyString
  | [x] => x
  | x :: l' => x ++ sep ++ join sep l'
  end.

Definition concat_map {A : Type} (f : A -> string) (l : list A) : string :=
  fold_right (fun x acc => f x ++ acc) EmptyString l.

(** [needle in s] for two strings *)
Fixpoint str_contains (needle s : string) : bool :=
  if String.prefix needle s then true
  else match s with
       | EmptyString => false
       | String _ s' => str_contains needle s'
       end.

Definition dquote : string := String "034"%char EmptyString.

(** json.dumps of a string with the default [ensure_ascii=True]. *)
Definition json_escape_char (g : string) : string :=
  let cp := codepoint g in
  if cp =? 34 then String "\"%char dquote
  else if cp =? 92 then "\\"
  else if cp =? 10 then "\n"
  else if cp =? 13 then "\r"
  else if cp =? 9 then "\t"
  else if cp =? 8 then "\b"
  else if cp =? 12 then "\f"
  else if (32 <=? cp) && (cp <=? 126) then g
  else if cp <? 0x10000 then "\u" ++ hex 4 cp
  else
    let n := cp - 0x10000 in
    "\u" ++ hex 4 (Z.lor 0xd800 (Z.land (Z.shiftr n 10) 0x3ff))
      ++ "\u" ++ hex 4 (Z.lor 0xdc00 (Z.land n 0x3ff)).

Definition json_string (s : string) : string :=
  dquote ++ concat_map json_escape_char (chars s) ++ dquote.


(** The code points from 128 up that [str.isprintable] refuses: the
    characters of the Unicode categories Other and Separator (Unicode 14.0,
    the tables of CPython 3.11), as ranges. *)
Definition unprintable : list (Z * Z) :=
  [
    (128, 160); (173, 173); (888, 889); (896, 899); (907, 907); (909, 909);
    (930, 930); (1328, 1328); (1367, 1368); (1419, 1420); (1424, 1424);
    (1480, 1487); (1515, 1518); (1525, 1541); (1564, 1564); (1757, 1757);
    (1806, 1807); (1867, 1868); (1970, 1983); (2043, 2044); (2094, 2095);
    (2111, 2111); (2140, 2141); (2143, 2143); (2155, 2159); (2191, 2199);
    (2274, 2274); (2436, 2436); (2445, 2446); (2449, 2450); (2473, 2473);
    (2481, 2481); (2483, 2485); (2490, 2491); (2501, 2502); (2505, 2506);
    (2511, 2518); (2520, 2523); (2526, 2526); (2532, 2533); (2559, 2560);
    (2564, 2564); (2571, 2574); (2577, 2578); (2601, 2601); (2609, 2609);
    (2612, 2612); (2615, 2615); (2618, 2619); (2621, 2621); (2627, 2630);
    (2633, 2634); (2638, 2640); (2642, 2648); (2653, 2653); (2655, 2661);
    (2679, 2688); (2692, 2692); (2702, 2702); (2706, 2706); (2729, 2729);
    (2737, 2737); (2740, 2740); (2746, 2747); (2758, 2758); (2762, 2762);
    (2766, 2767); (2769, 2783); (2788, 2789); (2802, 2808); (2816, 2816);
    (2820, 2820); (2829, 2830); (2833, 2834); (2857, 2857); (2865, 2865);
    (2868, 2868); (2874, 2875); (2885, 2886); (2889, 2890); (2894, 2900);
    (2904, 2907); (2910, 2910); (2916, 2917); (2936, 2945); (2948, 2948);
    (2955, 2957); (2961, 2961); (2966, 2968); (2971, 2971); (2973, 2973);
    (2976, 2978); (2981, 2983); (2987, 2989); (3002, 3005); (3011, 3013);
    (3017, 3017); (3022, 3023); (3025, 3030); (3032, 3045); (3067, 3071);
    (3085, 3085); (3089, 3089); (3113, 3113); (3130, 3131); (3141, 3141);
    (3145, 3145); (3150, 3156); (3159, 3159); (3163, 3164); (3166, 3167);
    (3172, 3173); (3184, 3190); (3213, 3213); (3217, 3217); (3241, 3241);
    (3252, 3252); (3258, 3259); (3269, 3269); (3273, 3273); (3278, 3284);
    (3287, 3292); (3295, 3295); (3300, 3301); (3312, 3312); (3315, 3327);
    (3341, 3341); (3345, 3345); (3397, 3397); (3401, 3401); (3408, 3411);
    (3428, 3429); (3456, 3456); (3460, 3460); (3479, 3481); (3506, 3506);
    (3516, 3516); (3518, 3519); (3527, 3529); (3531, 3534); (3541, 3541);
    (3543, 3543); (3552, 3557); (3568, 3569); (3573, 3584); (3643, 3646);
    (3676, 3712); (3715, 3715); (3717, 3717); (3723, 3723); (3748, 3748);
    (3750, 3750); (3774, 3775); (3781, 3781); (3783, 3783); (3790, 3791);
    (3802, 3803); (3808, 3839); (3912, 3912); (3949, 3952); (3992, 3992);
    (4029, 4029); (4045, 4045); (4059, 4095); (4294, 4294); (4296, 4300);
    (4302, 4303); (4681, 4681); (4686, 4687); (4695, 4695); (4697, 4697);
    (4702, 4703); (4745, 4745); (4750, 4751); (4785, 4785); (4790, 4791);
    (4799, 4799); (4801, 4801); (4806, 4807); (4823, 4823); (4881, 4881);
    (4886, 4887); (4955, 4956); (4989, 4991); (5018, 5023); (5110, 5111);
    (5118, 5119); (5760, 5760); (5789, 5791); (5881, 5887); (5910, 5918);
    (5943, 5951); (5972, 5983); (5997, 5997); (6001, 6001); (6004, 6015);
    (6110, 6111); (6122, 6127); (6138, 6143); (6158, 6158); (6170, 6175);
    (6265, 6271); (6315, 6319); (6390, 6399); (6431, 6431); (6444, 6447);
    (6460, 6463); (6465, 6467); (6510, 6511); (6517, 6527); (6572, 6575);
    (6602, 6607); (6619, 6621); (6684, 6685); (6751, 6751); (6781, 6782);
    (6794, 6799); (6810, 6815); (6830, 6831); (6863, 6911); (6989, 6991);
    (7039, 7039); (7156, 7163); (7224, 7226); (7242, 7244); (7305, 7311);
    (7355, 7356); (7368, 7375); (7419, 7423); (7958, 7959); (7966, 7967);
    (8006, 8007); (8014, 8015); (8024, 8024); (8026, 8026); (8028, 8028);
    (8030, 8030); (8062, 8063); (8117, 8117); (8133, 8133); (8148, 8149);
    (8156, 8156); (8176, 8177); (8181, 8181); (8191, 8207); (8232, 8239);
    (8287, 8303); (8306, 8307); (8335, 8335); (8349, 8351); (8385, 8399);
    (8433, 8447); (8588, 8591); (9255, 9279); (9291, 9311); (11124, 11125);
    (11158, 11158); (11508, 11512); (11558, 11558); (11560, 11564);
    (11566, 11567); (11624, 11630); (11633, 11646); (11671, 11679);
    (11687, 11687); (11695, 11695); (11703, 11703); (11711, 11711);
    (11719, 11719); (11727, 11727); (11735, 11735); (11743, 11743);
    (11870, 11903); (11930, 11930); (12020, 12031); (12246, 12271);
    (12284, 12288); (12352, 12352); (12439, 12440); (12544, 12548);
    (12592, 12592); (12687, 12687); (12772, 12783); (12831, 12831);
    (42125, 42127); (42183, 42191); (42540, 42559); (42744, 42751);
    (42955, 42959); (42962, 42962); (42964, 42964); (42970, 42993);
    (43053, 43055); (43066, 43071); (43128, 43135); (43206, 43213);
    (43226, 43231); (43348, 43358); (43389, 43391); (43470, 43470);
    (43482, 43485); (43519, 43519); (43575, 43583); (43598, 43599);
    (43610, 43611); (43715, 43738); (43767, 43776); (43783, 43784);
    (43791, 43792); (43799, 43807); (43815, 43815); (43823, 43823);
    (43884, 43887); (44014, 44015); (44026, 44031); (55204, 55215);
    (55239, 55242); (55292, 63743); (64110, 64111); (64218, 64255);
    (64263, 64274); (64280, 64284); (64311, 64311); (64317, 64317);
    (64319, 64319); (64322, 64322); (64325, 64325); (64451, 64466);
    (64912, 64913); (64968, 64974); (64976, 65007); (65050, 65055);
    (65107, 65107); (65127, 65127); (65132, 65135); (65141, 65141);
    (65277, 65280); (65471, 65473); (65480, 65481); (65488, 65489);
    (65496, 65497); (65501, 65503); (65511, 65511); (65519, 65531);
    (65534, 65535); (65548, 65548); (65575, 65575); (65595, 65595);
    (65598, 65598); (65614, 65615); (65630, 65663); (65787, 65791);
    (65795, 65798); (65844, 65846); (65935, 65935); (65949, 65951);
    (65953, 65999); (66046, 66175); (66205, 66207); (66257, 66271);
    (66300, 66303); (66340, 66348); (66379, 66383); (66427, 66431);
    (66462, 66462); (66500, 66503); (66518, 66559); (66718, 66719);
    (66730, 66735); (66772, 66775); (66812, 66815); (66856, 66863);
    (66916, 66926); (66939, 66939); (66955, 66955); (66963, 66963);
    (66966, 66966); (66978, 66978); (66994, 66994); (67002, 67002);
    (67005, 67071); (67383, 67391); (67414, 67423); (67432, 67455);
    (67462, 67462); (67505, 67505); (67515, 67583); (67590, 67591);
    (67593, 67593); (67638, 67638); (67641, 67643); (67645, 67646);
    (67670, 67670); (67743, 67750); (67760, 67807); (67827, 67827);
    (67830, 67834); (67868, 67870); (67898, 67902); (67904, 67967);
    (68024, 68027); (68048, 68049); (68100, 68100); (68103, 68107);
    (68116, 68116); (68120, 68120); (68150, 68151); (68155, 68158);
    (68169, 68175); (68185, 68191); (68256, 68287); (68327, 68330);
    (68343, 68351); (68406, 68408); (68438, 68439); (68467, 68471);
    (68498, 68504); (68509, 68520); (68528, 68607); (68681, 68735);
    (68787, 68799); (68851, 68857); (68904, 68911); (68922, 69215);
    (69247, 69247); (69290, 69290); (69294, 69295); (69298, 69375);
    (69416, 69423); (69466, 69487); (69514, 69551); (69580, 69599);
    (69623, 69631); (69710, 69713); (69750, 69758); (69821, 69821);
    (69827, 69839); (69865, 69871); (69882, 69887); (69941, 69941);
    (69960, 69967); (70007, 70015); (70112, 70112); (70133, 70143);
    (70162, 70162); (70207, 70271); (70279, 70279); (70281, 70281);
    (70286, 70286); (70302, 70302); (70314, 70319); (70379, 70383);
    (70394, 70399); (70404, 70404); (70413, 70414); (70417, 70418);
    (70441, 70441); (70449, 70449); (70452, 70452); (70458, 70458);
    (70469, 70470); (70473, 70474); (70478, 70479); (70481, 70486);
    (70488, 70492); (70500, 70501); (70509, 70511); (70517, 70655);
    (70748, 70748); (70754, 70783); (70856, 70863); (70874, 71039);
    (71094, 71095); (71134, 71167); (71237, 71247); (71258, 71263);
    (71277, 71295); (71354, 71359); (71370, 71423); (71451, 71452);
    (71468, 71471); (71495, 71679); (71740, 71839); (71923, 71934);
    (71943, 71944); (71946, 71947); (71956, 71956); (71959, 71959);
    (71990, 71990); (71993, 71994); (72007, 72015); (72026, 72095);
    (72104, 72105); (72152, 72153); (72165, 72191); (72264, 72271);
    (72355, 72367); (72441, 72703); (72713, 72713); (72759, 72759);
    (72774, 72783); (72813, 72815); (72848, 72849); (72872, 72872);
    (72887, 72959); (72967, 72967); (72970, 72970); (73015, 73017);
    (73019, 73019); (73022, 73022); (73032, 73039); (73050, 73055);
    (73062, 73062); (73065, 73065); (73103, 73103); (73106, 73106);
    (73113, 73119); (73130, 73439); (73465, 73647); (73649, 73663);
    (73714, 73726); (74650, 74751); (74863, 74863); (74869, 74879);
    (75076, 77711); (77811, 77823); (78895, 82943); (83527, 92159);
    (92729, 92735); (92767, 92767); (92778, 92781); (92863, 92863);
    (92874, 92879); (92910, 92911); (92918, 92927); (92998, 93007);
    (93018, 93018); (93026, 93026); (93048, 93052); (93072, 93759);
    (93851, 93951); (94027, 94030); (94088, 94094); (94112, 94175);
    (94181, 94191); (94194, 94207); (100344, 100351); (101590, 101631);
    (101641, 110575); (110580, 110580); (110588, 110588); (110591, 110591);
    (110883, 110927); (110931, 110947); (110952, 110959); (111356, 113663);
    (113771, 113775); (113789, 113791); (113801, 113807); (113818, 113819);
    (113824, 118527); (118574, 118575); (118599, 118607); (118724, 118783);
    (119030, 119039); (119079, 119080); (119155, 119162); (119275, 119295);
    (119366, 119519); (119540, 119551); (119639, 119647); (119673, 119807);
    (119893, 119893); (119965, 119965); (119968, 119969); (119971, 119972);
    (119975, 119976); (119981, 119981); (119994, 119994); (119996, 119996);
    (120004, 120004); (120070, 120070); (120075, 120076); (120085, 120085);
    (120093, 120093); (120122, 120122); (120127, 120127); (120133, 120133);
    (120135, 120137); (120145, 120145); (120486, 120487); (120780, 120781);
    (121484, 121498); (121504, 121504); (121520, 122623); (122655, 122879);
    (122887, 122887); (122905, 122906); (122914, 122914); (122917, 122917);
    (122923, 123135); (123181, 123183); (123198, 123199); (123210, 123213);
    (123216, 123535); (123567, 123583); (123642, 123646); (123648, 124895);
    (124903, 124903); (124908, 124908); (124911, 124911); (124927, 124927);
    (125125, 125126); (125143, 125183); (125260, 125263); (125274, 125277);
    (125280, 126064); (126133, 126208); (126270, 126463); (126468, 126468);
    (126496, 126496); (126499, 126499); (126501, 126502); (126504, 126504);
    (126515, 126515); (126520, 126520); (126522, 126522); (126524, 126529);
    (126531, 126534); (126536, 126536); (126538, 126538); (126540, 126540);
    (126544, 126544); (126547, 126547); (126549, 126550); (126552, 126552);
    (126554, 126554); (126556, 126556); (126558, 126558); (126560, 126560);
    (126563, 126563); (126565, 126566); (126571, 126571); (126579, 126579);
    (126584, 126584); (126589, 126589); (126591, 126591); (126602, 126602);
    (126620, 126624); (126628, 126628); (126634, 126634); (126652, 126703);
    (126706, 126975); (127020, 127023); (127124, 127135); (127151, 127152);
    (127168, 127168); (127184, 127184); (127222, 127231); (127406, 127461);
    (127491, 127503); (127548, 127551); (127561, 127567); (127570, 127583);
    (127590, 127743); (128728, 128732); (128749, 128751); (128765, 128767);
    (128884, 128895); (128985, 128991); (129004, 129007); (129009, 129023);
    (129036, 129039); (129096, 129103); (129114, 129119); (129160, 129167);
    (129198, 129199); (129202, 129279); (129620, 129631); (129646, 129647);
    (129653, 129655); (129661, 129663); (129671, 129679); (129709, 129711);
    (129723, 129727); (129734, 129743); (129754, 129759); (129768, 129775);
    (129783, 129791); (129939, 129939); (129995, 130031); (130042, 131071);
    (173792, 173823); (177977, 177983); (178206, 178207); (183970, 183983);
    (191457, 194559); (195102, 196607); (201547, 917759); (918000, 1114111)
  ].

Definition is_printable (cp : Z) : bool :=
  negb (existsb (fun r => (fst r <=? cp) && (cp <=? snd r)) unprintable).

Definition quote_for (s : string) : ascii :=
  if str_contains "'" s && negb (str_contains dquote s)
  then "034"%char else "'"%char.

(** [repr(s)] for a [str]: single quotes unless the text has a single and no
    double quote; the backslash, the quote, control characters and the
    characters that are not printable are escaped. *)
Definition repr_escape_char (quote : ascii) (g : string) : string :=
  let cp := codepoint g in
  if cp =? 92 then "\\"
  else if cp =? byte_of quote then String "\"%char g
  else if cp =? 10 then "\n"
  else if cp =? 13 then "\r"
  else if cp =? 9 then "\t"
  else if (cp <? 32) || (cp =? 127) then "\x" ++ hex 2 cp
  else if cp <? 127 then g
  else if is_printable cp then g
  else if cp <? 0x100 then "\x" ++ hex 2 cp
  else if cp <? 0x10000 then "\u" ++ hex 4 cp
  else "\U" ++ hex 8 cp.

Definition str_repr (s : string) : string :=
  let quote := quote_for s in
  String quote
    (concat_map (repr_escape_char quote) (chars s) ++ String quote EmptyString).

(** [repr(b)] for a [bytes] object: every byte outside the printable ASCII
    range is escaped. *)
Definition bytes_escape_char (quote : ascii) (c : ascii) : string :=
  let b := byte_of c in
  if b =? 92 then "\\"
  else if Ascii.eqb c quote then String "\"%char (String c EmptyString)
  else if b =? 10 then "\n"
  else if b =? 13 then "\r"
  else if b =? 9 then "\t"
  else if (b <? 32) || (127 <=? b) then "\x" ++ hex 2 b
  else String c EmptyString.

Definition bytes_repr (b : string) : string :=
  let quote := quote_for b in
  String "b"%char
    (String quote
       (concat_map (bytes_escape_char quote) (list_ascii_of_string b)
          ++ String quote EmptyString)).

(** [repr(v)] *)
Fixpoint py_repr (v : pyval) : string :=
  match v with
  | VNone => "None"
  | VBool true => "True"
  | VBool false => "False"
  | VInt n => str_of_int n
  | VFloat q => float_repr q
  | VStr s => str_repr s
  | VList l => "[" ++ join ", " (map py_repr l) ++ "]"
  | VDict d =>
      "{" ++ join ", " (map (fun kv => str_repr (fst kv) ++ ": " ++ py_repr (snd kv)) d)
        ++ "}"
  | VBytes b => bytes_repr b
  end.

(** [str(v)], which is what an f-string field prints *)
Definition py_str (v : pyval) : string :=
  match v with
  | VStr s => s
  | _ => py_repr v
  end.

Fixpoint insert_item (kv : string * string) (l : list (string * string)) :=
  match l with
  | [] => [kv]
  | kv' :: l' =>
      if String.leb (fst kv') (fst kv) then kv' :: insert_item kv l'
      else kv :: l
  end.

(** Stable sort of rendered items by key. *)
Definition sort_items (l : list (string * string)) : list (string * string) :=
  fold_left (fun acc kv => insert_item kv acc) l [].

(** [json.dumps(v)] and [json.dumps(v, sort_keys=True)]: [TypeError] for
    a value with a [bytes] object in it, which the encoder refuses. *)
Fixpoint json_dumps (sort_keys : bool) (v : pyval) : res string :=
  match v with
  | VNone => Ok "null"
  | VBool true => Ok "true"
  | VBool false => Ok "false"
  | VInt n => Ok (str_of_int n)
  | VFloat q => Ok (json_float q)
  | VStr s => Ok (json_string s)
  | VList l =>
      rbind
        ((fix each (l : list pyval) : res (list string) :=
            match l with
            | [] => Ok []
            | x :: l' =>
                rbind (json_dumps sort_keys x) (fun t =>
                rbind (each l') (fun ts => Ok (t :: ts)))
            end) l)
        (fun ts => Ok ("[" ++ join ", " ts ++ "]"))
  | VDict d =>
      rbind
        ((fix each (d : list (string * pyval)) : res (list (string * string)) :=
            match d with
            | [] => Ok []
            | (k, x) :: d' =>
                rbind (json_dumps sort_keys x) (fun t =>
                rbind (each d') (fun ts => Ok ((k, t) :: ts)))
            end) d)
        (fun items =>
           let items := if sort_keys then sort_items items else items in
           Ok ("{"
                 ++ join ", " (map (fun kv => json_string (fst kv) ++ ": " ++ snd kv) items)
                 ++ "}"))
  | VBytes _ => Err TypeError
  end.

(** *** Truth value, length, membership, comparison, iteration *)

Definition truthy (v : pyval) : bool :=
  match v with
  | VNone => false
  | VBool b => b
  | VInt n => negb (n =? 0)
  | VFloat q => negb (Qnum q =? 0)
  | VStr s => negb (String.eqb s EmptyString)
  | VList l => match l with [] => false | _ => true end
  | VDict d => match d with [] => false | _ => true end
  | VBytes b => negb (String.eqb b EmptyString)
  end.

(** [len(v)] *)
Definition py_len (v : pyval) : res Z :=
  match v with
  | VStr s => Ok (Z.of_nat (length (chars s)))
  | VList l => Ok (Z.of_nat (length l))
  | VDict d => Ok (Z.of_nat (length d))
  | VBytes b => Ok (Z.of_nat (String.length b))
  | _ => Err TypeError
  end.

(** [v == 'text'] *)
Definition eq_str (v : pyval) (text : string) : bool :=
  match v with
  | VStr s => String.eqb s text
  | _ => false
  end.

(** ['text' in v]; a [bytes] object refuses a [str]. *)
Definition contains (needle : string) (v : pyval) : res bool :=
  match v with
  | VStr s => Ok (str_contains needle s)
  | VList l =>
      Ok (existsb (fun x => eq_str x needle) l)
  | VDict d => Ok (has_key needle d)
  | _ => Err TypeError
  end.

(** The number a value stands for in an ordering comparison with an
    [int], when it has one. *)
Definition as_number (v : pyval) : res Q :=
  match v with
  | VBool b => Ok (inject_Z (if b then 1 else 0))
  | VInt n => Ok (inject_Z n)
  | VFloat q => Ok q
  | _ => Err TypeError
  end.

(** [v > n] for an [int] literal [n] *)
Definition gt_int (v : pyval) (n : Z) : res bool :=
  rbind (as_number v) (fun q => Ok (negb (Qle_bool q (inject_Z n)))).

(** The items a [for] loop over [v] visits. *)
Definition iterate (v : pyval) : res (list pyval) :=
  match v with
  | VList l => Ok l
  | VStr s => Ok (map VStr (chars s))
  | VDict d => Ok (map VStr (keys d))
  | VBytes b => Ok (map (fun c => VInt (byte_of c)) (list_ascii_of_string b))
  | _ => Err TypeError
  end.

(** [v['key']] for a string subscript *)
Definition subscript (v : pyval) (k : string) : res pyval :=
  match v with
  | VDict d => getitem d k
  | _ => Err TypeError
  end.

(** [s.encode()]: only a [str] has the method. *)
Definition encode (v : pyval) : res string :=
  match v with
  | VStr s => Ok s
  | _ => Err AttributeError
  end.

(** [v[:n]] as far as its failure goes: the slice of a sequence. *)
Definition slice_to (n : nat) (v : pyval) : res pyval :=
  match v with
  | VStr s => Ok (VStr (concat_map id (firstn n (chars s))))
  | VList l => Ok (VList (firstn n l))
  | VBytes b =>
      Ok (VBytes (string_of_list_ascii (firstn n (list_ascii_of_string b))))
  | _ => Err TypeError
  end.

(** Hashable values as dictionary keys: [True], [1] and [1.0] are one key. *)
Inductive pykey : Type :=
| KNone
| KNum (q : Qc)
| KStr (s : string)
| KBytes (b : string).

#[global] Instance pykey_eq_dec : EqDecision pykey.
Proof. solve_decision. Defined.

#[global] Instance pykey_countable : Countable pykey.
Proof.
  refine (inj_countable'
    (fun k => match k with
              | KNone => inl tt
              | KNum q => inr (inl q)
              | KStr s => inr (inr (inl s))
              | KBytes b => inr (inr (inr b))
              end)
    (fun x => match x with
              | inl _ => KNone
              | inr (inl q) => KNum q
              | inr (inr (inl s)) => KStr s
              | inr (inr (inr b)) => KBytes b
              end) _).
  intros []; reflexivity.
Defined.

(** [hash(v)] succeeds *)
Definition hashable (v : pyval) : res pykey :=
  match v with
  | VNone => Ok KNone
  | VBool b => Ok (KNum (Q2Qc (inject_Z (if b then 1 else 0))))
  | VInt n => Ok (KNum (Q2Qc (inject_Z n)))
  | VFloat q => Ok (KNum (Q2Qc q))
  | VStr s => Ok (KStr s)
  | VBytes b => Ok (KBytes b)
  | _ => Err TypeError
  end.

(** *** Methods: state passing with exceptions *)

Inductive outcome (S A : Type) : Type :=
| Returns (a : A) (s : S)
| Raises (e : exn) (s : S).
Arguments Returns {S A} a s.
Arguments Raises {S A} e s.

Definition state_of {S A : Type} (o : outcome S A) : S :=
  match o with
  | Returns _ s => s
  | Raises _ s => s
  end.

Definition value_of {S A : Type} (o : outcome S A) : option A :=
  match o with
  | Returns a _ => Some a
  | Raises _ _ => None
  end.

Definition M (S A : Type) : Type := S -> outcome S A.

Definition ret {S A : Type} (a : A) : M S A := fun s => Returns a s.

Definition bind {S A B : Type} (m : M S A) (f : A -> M S B) : M S B :=
  fun s =>
    match m s with
    | Returns a s' => f a s'
    | Raises e s' => Raises e s'
    end.

Definition lift {S A : Type} (r : res A) : M S A :=
  fun s =>
    match r with
    | Ok a => Returns a s
    | Err e => Raises e s
    end.

Definition gets {S A : Type} (f : S -> A) : M S A := fun s => Returns (f s) s.

Definition modify {S : Type} (f : S -> S) : M S unit := fun s => Returns tt (f s).

(** A [for] loop with the local variables it updates in [acc]; the body
    raises, goes on with new locals ([inl]) or leaves the enclosing
    function with a value ([inr], a [return] inside the loop). *)
Fixpoint for_loop {S A B R : Type} (l : list A) (acc : B)
  (body : A -> B -> M S (B + R)) : M S (B + R) :=
  match l with
  | [] => ret (inl acc)
  | x :: l' =>
      bind (body x acc) (fun r =>
        match r with
        | inl acc' => for_loop l' acc' body
        | inr v => ret (inr v)
        end)
  end.


(** [m] takes every state to one related to it by [R], whether it returns
    or raises. *)
Definition keeps {S A : Type} (R : S -> S -> Prop) (m : M S A) : Prop :=
  forall s, R s (state_of (m s)).

(** From a state that satisfies [P], [m] returns (it does not raise), with a
    value and a state that satisfy [Q]. *)
Definition returns_with {S A : Type} (P : S -> Prop) (m : M S A)
    (Q : A -> S -> Prop) : Prop :=
  forall s, P s -> exists a s', m s = Returns a s' /\ Q a s'.

Module Notations.
Notation "x <- m ;; k" := (bind m (fun x => k))
  (at level 100, m at next level, right associativity).
Notation "m ;;; k" := (bind m (fun _ => k))
  (at level 100, right associativity).
End Notations.

End Py.

(** ** datetime *)

Module Datetime.

Record datetime : Type := Datetime {
  year : Z; month : Z; day : Z;
  hour : Z; minute : Z; second : Z; microsecond : Z
}.

(** Days since 1970-01-01 in the proleptic Gregorian calendar. *)
Definition days_from_civil (y m d : Z) : Z :=
  let y' := if m <=? 2 then y - 1 else y in
  let era := y' / 400 in
  let yoe := y' - era * 400 in
  let doy := (153 * (if m <=? 2 then m + 9 else m - 3) + 2) / 5 + d - 1 in
  let doe := yoe * 365 + yoe / 4 - yoe / 100 + doy in
  era * 146097 + doe - 719468.

(** Position on the time line, in microseconds. *)
Definition micros (t : datetime) : Z :=
  (((days_from_civil (year t) (month t) (day t) * 24 + hour t) * 60
    + minute t) * 60 + second t) * 1000000 + microsecond t.

(** [a - b > timedelta(minutes=n)] *)
Definition elapsed_more_than (minutes : Z) (a b : datetime) : bool :=
  minutes * 60 * 1000000 <? micros a - micros b.

(** [t.isoformat()] *)
Definition isoformat (t : datetime) : string :=
  Py.zero_pad 4 (year t) ++ "-" ++ Py.zero_pad 2 (month t) ++ "-"
    ++ Py.zero_pad 2 (day t) ++ "T" ++ Py.zero_pad 2 (hour t) ++ ":"
    ++ Py.zero_pad 2 (minute t) ++ ":" ++ Py.zero_pad 2 (second t)
    ++ (if microsecond t =? 0 then EmptyString
        else "." ++ Py.zero_pad 6 (microsecond t)).

(** The readings [datetime.now()] will return, in order. *)
Definition clock : Type := nat -> datetime.

(** A clock that starts on 9 March 2025 at 14:00:00 and advances one
    second per reading. *)
Definition ticking_clock : clock :=
  fun n =>
    Datetime 2025 3 9 14 (Z.of_nat n / 60 mod 60) (Z.of_nat n mod 60) 0.

End Datetime.

(** ** SHA256Verifier

    The class is defined three times.  [journalism_pipeline.py] and
    [watsonx_orchestrate.py] share one body of [verify]; the body in
    [octopus_parliament_only.py] assigns the hash again when it matches. *)

Module SHA256Verifier.

(** [compute_hash]: [hashlib.sha256(data.encode()).hexdigest()] *)
Definition compute_hash (data : string) : string := Sha256.hexdigest data.

Section Verify.
(** Keys are whatever hashable values the callers pass. *)
Context {K : Type} `{Countable K}.

(** [self.hashes = {}] *)
Definition init : gmap K string := ∅.

(** journalism_pipeline.py, lines 319-324 *)
Definition verify (key : K) (data : string) (hashes : gmap K string)
  : bool * gmap K string :=
  let current := compute_hash data in
  match hashes !! key with
  | Some h => (bool_decide (h = current), hashes)
  | None => (true, <[key := current]> hashes)
  end.

(** octopus_parliament_only.py, lines 57-68 *)
Definition verify_parliament (key : K) (data : string) (hashes : gmap K string)
  : bool * gmap K string :=
  let current := compute_hash data in
  match hashes !! key with
  | Some h =>
      if bool_decide (h ≠ current) then (false, hashes)
      else (true, <[key := current]> hashes)
  | None => (true, <[key := current]> hashes)
  end.

(** The store after a sequence of calls [self.sha.verify(key, data)], made
    with either body. *)
Definition verify_each
    (body : K -> string -> gmap K string -> bool * gmap K string)
    (calls : list (K * string)) (hashes : gmap K string) : gmap K string :=
  fold_left (fun h call => snd (body (fst call) (snd call) h)) calls hashes.
End Verify.

End SHA256Verifier.

(** ** octopus_parliament_only.py *)

Module Parliament.
Import Py Py.Notations Datetime.

(** *** OmniplexConstitution *)

Definition human_judgment_preserved : bool := true.

Definition zero_manipulation_check (data : pyval) : bool := true.

Definition check (action : string) (data : pyval) : bool :=
  if str_contains "decision" action && negb human_judgment_preserved then false
  else if negb (zero_manipulation_check data) then false
  else true.

(** *** We333ParliamentBrain *)

Record arm : Type := Arm { status : string; errors : Z }.

(** [self.ethics] and [self.sha] are assigned once, in [__init__], and are
    never [None]; of the two only the hash store of [self.sha] is state. *)
Record brain : Type := Brain {
  hashes : gmap string string;
  frozen : bool;
  last_drift : datetime;
  arms : list (string * arm);
  ticks : nat
}.

Definition with_hashes (h : gmap string string) (b : brain) : brain :=
  Brain h (frozen b) (last_drift b) (arms b) (ticks b).
Definition with_frozen (f : bool) (b : brain) : brain :=
  Brain (hashes b) f (last_drift b) (arms b) (ticks b).
Definition with_last_drift (t : datetime) (b : brain) : brain :=
  Brain (hashes b) (frozen b) t (arms b) (ticks b).
Definition with_arms (a : list (string * arm)) (b : brain) : brain :=
  Brain (hashes b) (frozen b) (last_drift b) a (ticks b).

Definition arm_names : list string :=
  [ "bills_monitor"; "votes_tracker"; "debates_analyzer"; "committees_watcher";
    "questions_tracker"; "lords_monitor"; "amendments_tracker"; "future_calendar" ].

Definition arm_errors (arm_name : string) (b : brain) : option Z :=
  option_map errors (lookup arm_name (arms b)).

(** Once-frozen-still-frozen, as a relation between the state before and
    the state after an operation. *)
Definition stays_frozen (b b' : brain) : Prop :=
  frozen b = true -> frozen b' = true.

(** Some arm has reached the error count that [process_arm] escalates on. *)
Definition arm_exhausted (b : brain) : Prop :=
  exists arm_name a, lookup arm_name (arms b) = Some a /\ 3 <= errors a.

(** How an operation may change the arms and the flag: no arm is added or
    lost, no error count goes down, and the flag is newly set only with an
    exhausted arm in the state reached or, where [by_drift] admits it, with
    the eight-arms check of the drift check failing. *)
Definition escalation (by_drift : bool) (b b' : brain) : Prop :=
  length (arms b') = length (arms b)
  /\ (forall arm_name a, lookup arm_name (arms b) = Some a ->
        exists a', lookup arm_name (arms b') = Some a' /\ errors a <= errors a')
  /\ (frozen b = false -> frozen b' = true ->
        arm_exhausted b'
        \/ (by_drift = true /\ Z.of_nat (length (arms b)) <> 8)).

(** What [freeze] does to the arms. *)
Definition freeze_arms (l : list (string * arm)) : list (string * arm) :=
  map (fun kv => (fst kv, Arm "frozen" (errors (snd kv)))) l.

Section Clocked.
Variable clk : clock.

(** [datetime.now()] *)
Definition now : M brain datetime :=
  fun b => Returns (clk (ticks b))
             (Brain (hashes b) (frozen b) (last_drift b) (arms b) (S (ticks b))).

(** [__init__] *)
Definition init : brain :=
  Brain ∅ false (clk O) (map (fun n => (n, Arm "ready" 0)) arm_names) 1.

Definition check_expected_pattern (data : dict) : bool := true.

Definition check_parliament_focus : bool := true.

(** [freeze]: the flag, then every arm. *)
Definition freeze (reason : string) : M brain unit :=
  modify (fun b => with_arms (freeze_arms (arms b)) (with_frozen true b)).

(** Of the five checks the third and the fourth are [self.ethics is not
    None] and [self.sha is not None]. *)
Definition drift_check : M brain bool :=
  t <- now ;;
  last <- gets last_drift ;;
  if elapsed_more_than 30 t last then
    n <- gets (fun b => Z.of_nat (length (arms b))) ;;
    let checks := [ check_parliament_focus; n =? 8; true; true; true ] in
    if negb (forallb id checks) then
      freeze "DRIFT DETECTED" ;;; ret false
    else
      t' <- now ;;
      modify (with_last_drift t') ;;; ret true
  else ret true.

(** [isinstance(data, dict)] holds of every [data : dict].  The arguments
    of [self.sha.verify] are evaluated in order: the key, which reads the
    clock, then [json.dumps], which raises for data it cannot encode. *)
Definition triple_verify (data : dict) : M brain bool :=
  let source_ok :=
    has_key "source" data
    && str_contains "parliament.uk" (py_str (get data "source" (VStr EmptyString))) in
  let structure_ok := 0 <? Z.of_nat (length data) in
  let pattern_ok := check_expected_pattern data in
  t <- now ;;
  let key := py_str (get data "type" (VStr "unknown")) ++ "_" ++ str_of_int (hour t) in
  text <- lift (json_dumps true (VDict data)) ;;
  h <- gets hashes ;;
  let '(sha_ok, h') := SHA256Verifier.verify_parliament key text h in
  modify (with_hashes h') ;;;
  let checks := [ source_ok; structure_ok; pattern_ok; sha_ok ] in
  if negb (forallb id checks) then ret false else ret true.

Definition mock_endpoints : list (string * string) :=
  [ ("bills_monitor", "/bills/current");
    ("votes_tracker", "/divisions/recent");
    ("debates_analyzer", "/debates/today");
    ("committees_watcher", "/committees/meetings");
    ("questions_tracker", "/questions/written");
    ("lords_monitor", "/lords/business");
    ("amendments_tracker", "/bills/amendments");
    ("future_calendar", "/calendar/upcoming") ].

Definition fetch_parliament_data (arm_name : string) : M brain dict :=
  let endpoint := get mock_endpoints arm_name "/unknown" in
  t <- now ;;
  ret [ ("type", VStr arm_name);
        ("source", VStr ("api.parliament.uk" ++ endpoint));
        ("timestamp", VStr (isoformat t));
        ("data", VStr ("Mock Parliament data from " ++ arm_name)) ].

(** [self.arms[arm_name]['errors'] += 1] *)
Definition count_error (arm_name : string) : M brain Z :=
  a <- (fun b => lift (getitem (arms b) arm_name) b) ;;
  let e := errors a + 1 in
  modify (fun b => with_arms (store arm_name (Arm (status a) e) (arms b)) b) ;;;
  ret e.

Definition process_arm (arm_name : string) : M brain dict :=
  if negb (check ("fetch_" ++ arm_name) (VStr arm_name)) then ret []
  else
    data <- fetch_parliament_data arm_name ;;
    ok <- triple_verify data ;;
    if negb ok then
      e <- count_error arm_name ;;
      (if 3 <=? e
       then freeze ("Arm " ++ arm_name ++ " failed 3 times")
       else ret tt) ;;;
      ret []
    else ret data.

Definition gather_intelligence : M brain dict :=
  fz <- gets frozen ;;
  if fz then ret [ ("status", VStr "frozen") ]
  else
    names <- gets (fun b => keys (arms b)) ;;
    r <- for_loop names ([] : dict) (fun arm_name intelligence =>
           arm_status <- gets (fun b =>
             match lookup arm_name (arms b) with
             | Some a => status a
             | None => EmptyString
             end) ;;
           if String.eqb arm_status "ready" then
             result <- process_arm arm_name ;;
             if truthy (VDict result)
             then ret (inl (store arm_name (VDict result) intelligence))
             else ret (inl intelligence)
           else ret (inl intelligence : dict + Empty_set)) ;;
    match r with
    | inl intelligence => ret intelligence
    | inr impossible => match impossible with end
    end.

(** The body of [while not self.frozen and iteration < 100]; [fuel] is
    the number of iterations left. *)
Fixpoint run_loop (fuel : nat) : M brain unit :=
  match fuel with
  | O => ret tt
  | S fuel' =>
      fz <- gets frozen ;;
      if fz then ret tt
      else
        now ;;;
        aligned <- drift_check ;;
        if negb aligned then ret tt
        else
          intelligence <- gather_intelligence ;;
          if has_key "status" intelligence
             && eq_str (get intelligence "status" VNone) "frozen"
          then ret tt
          else run_loop fuel'
  end.

Definition run : M brain unit := run_loop 100.

(** [main]: any exception out of [run] freezes the brain. *)
Definition main : brain :=
  match run init with
  | Returns _ b => b
  | Raises _ b => state_of (freeze "EXCEPTION - WE fix together" b)
  end.

(** The part of [process_arm] that decides the branch: the fetch and the
    verification of what it fetched. *)
Definition fetch_and_verify (arm_name : string) : M brain (dict * bool) :=
  data <- fetch_parliament_data arm_name ;;
  ok <- triple_verify data ;;
  ret (data, ok).

(** The methods a caller can invoke on the brain, and the state each
    leaves behind. *)
Inductive op : Type :=
| DriftCheck
| TripleVerify (data : dict)
| FetchData (arm_name : string)
| ProcessArm (arm_name : string)
| GatherIntelligence
| Run
| Freeze (reason : string).

Definition step (b : brain) (o : op) : brain :=
  match o with
  | DriftCheck => state_of (drift_check b)
  | TripleVerify data => state_of (triple_verify data b)
  | FetchData arm_name => state_of (fetch_parliament_data arm_name b)
  | ProcessArm arm_name => state_of (process_arm arm_name b)
  | GatherIntelligence => state_of (gather_intelligence b)
  | Run => state_of (run b)
  | Freeze reason => state_of (freeze reason b)
  end.

Definition trace (ops : list op) (b : brain) : brain := fold_left step ops b.
End Clocked.

(** Three gathers after start-up every arm has failed twice: the second and
    the third fetch of an hour carry a new time stamp under the key of the
    first. *)
Definition after_three_gathers : brain :=
  trace ticking_clock
    [ GatherIntelligence; GatherIntelligence; GatherIntelligence ]
    (init ticking_clock).


(** The flag and the status of every arm say the same. *)
Definition flag_matches_arms (b : brain) : Prop :=
  Forall (fun kv => status (snd kv) = if frozen b then "frozen" else "ready")
         (arms b).

(** What every operation keeps: the names of the arms in their order, error
    counts that do not go down, and the agreement of flag and statuses. *)
Definition well_kept (b b' : brain) : Prop :=
  keys (arms b') = keys (arms b)
  /\ (forall arm_name a, lookup arm_name (arms b) = Some a ->
        exists a', lookup arm_name (arms b') = Some a' /\ errors a <= errors a')
  /\ (flag_matches_arms b -> flag_matches_arms b').

End Parliament.

(** ** octopus_we333.py *)

Module We333.
Import Py Py.Notations Datetime.

Record arm : Type := Arm {
  status : string;
  last_data : pyval;
  errors : Z;
  we333_verified : bool
}.

Record watch : Type := Watch {
  arms : list (string * arm);
  frozen : bool;
  last_drift_check : datetime;
  we333_mode : bool;
  ticks : nat
}.

Definition with_arms (a : list (string * arm)) (w : watch) : watch :=
  Watch a (frozen w) (last_drift_check w) (we333_mode w) (ticks w).
Definition with_frozen (f : bool) (w : watch) : watch :=
  Watch (arms w) f (last_drift_check w) (we333_mode w) (ticks w).
Definition with_last_drift_check (t : datetime) (w : watch) : watch :=
  Watch (arms w) (frozen w) t (we333_mode w) (ticks w).

Definition our_arms : list string :=
  [ "parliament_monitor"; "council_tracker"; "x_sentiment"; "bias_detector";
    "economics_tracker"; "crime_monitor"; "weather_crisis"; "future_simulator" ].

Definition check_uk_focus : bool := true.
Definition check_simplicity : bool := true.
Definition check_truth_priority : bool := true.
Definition check_zero_manipulation : bool := true.
Definition verify_primary_source (data : pyval) : bool := true.
Definition verify_secondary_source (data : pyval) : bool := true.
Definition verify_pattern_match (data : pyval) : bool := true.
Definition await_human_verification : bool := true.

Definition get_human_context (arm_name : string) : pyval :=
  VDict [ ("human_insight", VStr "Local knowledge added") ].

Definition we333_merge (ai_data human_context : pyval) : pyval :=
  VDict [ ("ai_perspective", ai_data);
          ("human_wisdom", human_context);
          ("our_synthesis", VStr "Combined understanding");
          ("we333_verified", VBool true) ].

Definition stays_frozen (w w' : watch) : Prop :=
  frozen w = true -> frozen w' = true.

(** The flag, and the status and error count of every arm, are as before. *)
Definition no_failure (w w' : watch) : Prop :=
  frozen w' = frozen w
  /\ forall arm_name a, lookup arm_name (arms w) = Some a ->
       exists a', lookup arm_name (arms w') = Some a'
                  /\ status a' = status a /\ errors a' = errors a.

Section Clocked.
Variable clk : clock.

Definition now : M watch datetime :=
  fun w => Returns (clk (ticks w))
             (Watch (arms w) (frozen w) (last_drift_check w) (we333_mode w)
                    (S (ticks w))).

(** [initialize_our_arms] on the empty [self.arms] of [__init__] *)
Definition initialize_our_arms : list (string * arm) :=
  fold_left (fun d n => store n (Arm "ready" VNone 0 false) d) our_arms [].

(** [__init__] *)
Definition init : watch :=
  Watch initialize_our_arms false (clk O) true 1.

(** [we_freeze]: the flag, every arm, then the time stamp of the log line. *)
Definition we_freeze (reason : string) : M watch unit :=
  modify (fun w =>
    with_arms
      (map (fun kv => (fst kv, Arm "frozen" (last_data (snd kv)) (errors (snd kv))
                                   (we333_verified (snd kv)))) (arms w))
      (with_frozen true w)) ;;;
  now ;;; ret tt.

Definition we333_drift_check : M watch bool :=
  t <- now ;;
  last <- gets last_drift_check ;;
  if elapsed_more_than 30 t last then
    n <- gets (fun w => Z.of_nat (length (arms w))) ;;
    let checks := [ check_uk_focus; n =? 8; check_simplicity;
                    check_truth_priority; check_zero_manipulation ] in
    if negb (forallb id checks) then
      we_freeze "WE DETECTED DRIFT TOGETHER" ;;; ret false
    else
      t' <- now ;;
      modify (with_last_drift_check t') ;;; ret true
  else ret true.

Definition we333_triple_check (data : pyval) : M watch bool :=
  let ai_check1 := verify_primary_source data in
  let ai_check2 := verify_secondary_source data in
  let ai_check3 := verify_pattern_match data in
  let human_check := await_human_verification in
  let we_verified := ai_check1 && ai_check2 && ai_check3 && human_check in
  if negb we_verified then
    we_freeze "WE333 VERIFICATION NEEDS CONSENSUS" ;;; ret false
  else ret true.

Definition collect_from_arm (arm_name : string) : M watch pyval :=
  t <- now ;;
  ret (VDict [ ("source", VStr arm_name);
               ("timestamp", VStr (isoformat t));
               ("data", VStr ("Mock data from " ++ arm_name)) ]).

(** Assignments to the fields of [arm_data], the entry of [arm_name]. *)
Definition update_arm (arm_name : string) (f : arm -> arm) : M watch unit :=
  modify (fun w =>
    match lookup arm_name (arms w) with
    | Some a => with_arms (store arm_name (f a) (arms w)) w
    | None => w
    end).

Definition arm_field {A : Type} (arm_name : string) (f : arm -> A) (dflt : A)
  : M watch A :=
  gets (fun w => match lookup arm_name (arms w) with
                 | Some a => f a
                 | None => dflt
                 end).

(** The branch of [collaborative_gather] for a verification that failed,
    lines 159 to 163: one more error for the arm, and from the third on the
    freeze and the early [return]. *)
Definition count_failure (arm_name : string) (our_intelligence : dict)
  : M watch (dict + dict) :=
  update_arm arm_name (fun a =>
    Arm (status a) (last_data a) (errors a + 1) (we333_verified a)) ;;;
  e <- arm_field arm_name errors 0 ;;
  if 3 <=? e then
    we_freeze ("OUR " ++ arm_name ++ " needs attention") ;;;
    ret (inr [ ("status", VStr "WE are fixing together") ])
  else ret (inl our_intelligence).

Definition collaborative_gather : M watch dict :=
  fz <- gets frozen ;;
  if fz then ret [ ("status", VStr "WE are reviewing together") ]
  else
    names <- gets (fun w => keys (arms w)) ;;
    r <- for_loop names ([] : dict) (fun arm_name our_intelligence =>
           arm_status <- arm_field arm_name status EmptyString ;;
           if String.eqb arm_status "ready" then
             ai_data <- collect_from_arm arm_name ;;
             let human_context := get_human_context arm_name in
             let merged_data := we333_merge ai_data human_context in
             ok <- we333_triple_check merged_data ;;
             if ok then
               update_arm arm_name (fun a =>
                 Arm (status a) merged_data (errors a) true) ;;;
               ret (inl (store arm_name merged_data our_intelligence))
             else count_failure arm_name our_intelligence
           else ret (inl our_intelligence)) ;;
    match r with
    | inl our_intelligence => ret our_intelligence
    | inr status_report => ret status_report
    end.

(** [while not self.frozen]: [fuel] bounds the number of iterations
    looked at; the loop itself has no bound. *)
Fixpoint run_loop (fuel : nat) : M watch unit :=
  match fuel with
  | O => ret tt
  | S fuel' =>
      fz <- gets frozen ;;
      if fz then ret tt
      else
        now ;;;
        aligned <- we333_drift_check ;;
        if negb aligned then ret tt
        else
          our_intelligence <- collaborative_gather ;;
          match lookup "status" our_intelligence with
          | Some st =>
              fixing <- lift (contains "fixing" st) ;;
              if fixing then ret tt else run_loop fuel'
          | None => run_loop fuel'
          end
  end.

(** [main] with the loop cut after [fuel] iterations: any exception out
    of [run] freezes the watch. *)
Definition main (fuel : nat) : watch :=
  match run_loop fuel init with
  | Returns _ w => w
  | Raises _ w => state_of (we_freeze "WE WILL FIX TOGETHER" w)
  end.

(** The methods a caller can invoke on the watch; [Run fuel] is the main
    loop followed for at most [fuel] iterations. *)
Inductive op : Type :=
| DriftCheck
| TripleCheck (data : pyval)
| CollectFromArm (arm_name : string)
| CollaborativeGather
| Run (fuel : nat)
| WeFreeze (reason : string).

Definition step (w : watch) (o : op) : watch :=
  match o with
  | DriftCheck => state_of (we333_drift_check w)
  | TripleCheck data => state_of (we333_triple_check data w)
  | CollectFromArm arm_name => state_of (collect_from_arm arm_name w)
  | CollaborativeGather => state_of (collaborative_gather w)
  | Run fuel => state_of (run_loop fuel w)
  | WeFreeze reason => state_of (we_freeze reason w)
  end.

Definition trace (ops : list op) (w : watch) : watch := fold_left step ops w.
End Clocked.

(** The state of a watch that is running: flag down, arms named [ks], at
    least [n] clock readings made. *)
Definition running (ks : list string) (n : nat) (w : watch) : Prop :=
  frozen w = false /\ keys (arms w) = ks /\ (n <= ticks w)%nat.

(** What [collaborative_gather] stores under the name of an arm. *)
Definition merged (v : pyval) : Prop :=
  exists ai human, v = we333_merge ai human.

(** Every entry of the intelligence is the merged data of an arm that is
    marked as verified and holds it as its last data. *)
Definition reported (our_intelligence : dict) (w : watch) : Prop :=
  forall arm_name data, lookup arm_name our_intelligence = Some data ->
    merged data
    /\ exists a, lookup arm_name (arms w) = Some a
                 /\ last_data a = data /\ we333_verified a = true.

End We333.

(** ** journalism_pipeline.py *)

Module Journalism.
Import Py Py.Notations Datetime.

(** *** OmniplexJournalismEthics *)

Definition check_story_ethics (story : dict) : bool := true.

(** [verified_facts and sources_cited > 0]: the value of the [and]. *)
Definition approve_publication (publication : dict) : res pyval :=
  let facts := get publication "verified_facts" VNone in
  if truthy facts then
    rbind (gt_int (get publication "sources_cited" (VInt 0)) 0)
          (fun b => Ok (VBool b))
  else Ok facts.

(** *** JournalismPipeline *)

(** [self.sha.hashes] and the clock; [self.arms], [self.sources] and
    [self.ethics] never change. *)
Record pipeline : Type := Pipeline {
  hashes : gmap pykey string;
  ticks : nat
}.

Definition with_hashes (h : gmap pykey string) (p : pipeline) : pipeline :=
  Pipeline h (ticks p).

Definition raise {A : Type} (e : exn) : M pipeline A := fun p => Raises e p.

(** *** Helper methods *)

Definition check_parliament : list pyval :=
  [ VDict [ ("headline", VStr "New Climate Bill Debate");
            ("source", VStr "parliament"); ("importance", VInt 8) ] ].

Definition check_bbc : list pyval :=
  [ VDict [ ("headline", VStr "Breaking: Economic Update");
            ("source", VStr "bbc"); ("importance", VInt 7) ] ].

Definition check_x_twitter : list pyval :=
  [ VDict [ ("headline", VStr "Trending: NHS Discussion");
            ("source", VStr "twitter"); ("importance", VInt 6) ] ].

Definition classify_story (story : dict) : res pyval :=
  rbind (contains "parliament" (get story "source" (VStr EmptyString)))
        (fun b => Ok (VStr (if b then "political" else "general"))).

Definition identify_stakeholders (story : dict) : pyval :=
  VList [ VStr "Government"; VStr "Opposition"; VStr "Public" ].

Definition assess_impact (story : dict) : res pyval :=
  rbind (gt_int (get story "importance" (VInt 0)) 7)
        (fun b => Ok (VStr (if b then "high" else "medium"))).

Definition extract_facts (analysis : dict) : list pyval :=
  [ VDict [ ("claim", VStr "Sample fact"); ("source", VStr "test") ] ].

Definition check_primary_source (fact : pyval) : bool := true.
Definition check_secondary_source (fact : pyval) : bool := true.
Definition check_historical_pattern (fact : pyval) : bool := true.
Definition check_source_credibility (source : pyval) : pyval := VFloat (8 # 10).
Definition call_parliament_api (analysis : dict) : pyval :=
  VDict [ ("bills", VList []); ("votes", VList []) ].
Definition call_gov_api (analysis : dict) : pyval :=
  VDict [ ("statements", VList []) ].
Definition call_news_apis (analysis : dict) : pyval :=
  VDict [ ("articles", VList []) ].
Definition get_historical_context (analysis : dict) : pyval :=
  VStr "Historical context here".
Definition get_stakeholder_positions (analysis : dict) : pyval := VDict [].
Definition find_related_events (analysis : dict) : pyval := VList [].
Definition project_implications (analysis : dict) : pyval :=
  VStr "Future implications".
Definition calculate_bias (source : pyval) : Q := 0.
Definition generate_summary (analysis : dict) : string :=
  "Summary of " ++ py_str (get analysis "headline" (VStr "story")).

(** The key of [stories.sort]: [x.get('importance', 0)], a number in each
    of the three stories the script sorts. *)
Definition importance (x : pyval) : res Q :=
  match x with
  | VDict d => as_number (get d "importance" (VInt 0))
  | _ => Err AttributeError
  end.

Fixpoint insert_desc (kx : Q * pyval) (l : list (Q * pyval)) : list (Q * pyval) :=
  match l with
  | [] => [kx]
  | ky :: l' =>
      if Qle_bool (fst kx) (fst ky) then ky :: insert_desc kx l' else kx :: l
  end.

(** [sort(key=..., reverse=True)]: descending, equal keys keep their order. *)
Definition sort_desc (l : list (Q * pyval)) : list pyval :=
  map snd (fold_left (fun acc kx => insert_desc kx acc) l []).

Fixpoint with_keys (l : list pyval) : res (list (Q * pyval)) :=
  match l with
  | [] => Ok []
  | x :: l' =>
      rbind (importance x) (fun k =>
      rbind (with_keys l') (fun r => Ok ((k, x) :: r)))
  end.


Section Clocked.
Variable clk : clock.

Definition now : M pipeline datetime :=
  fun p => Returns (clk (ticks p)) (Pipeline (hashes p) (S (ticks p))).

(** [__init__] *)
Definition init : pipeline := Pipeline ∅ O.

(** [self.sha.verify(key, data)] on arbitrary arguments: [data.encode()]
    comes first, the key is hashed by the dictionary lookup. *)
Definition sha_verify (key data : pyval) : M pipeline bool :=
  text <- lift (encode data) ;;
  k <- lift (hashable key) ;;
  h <- gets hashes ;;
  let '(ok, h') := SHA256Verifier.verify k text h in
  modify (with_hashes h') ;;; ret ok.

(** ARM 1 *)
Definition hunt_stories (sources : dict) : M pipeline (list pyval) :=
  let stories := (check_parliament ++ check_bbc ++ check_x_twitter)%list in
  keyed <- lift (with_keys stories) ;;
  ret (firstn 3 (sort_desc keyed)).

(** ARM 2 *)
Definition analyze_story (story : dict) : M pipeline dict :=
  t <- now ;;
  type <- lift (classify_story story) ;;
  impact <- lift (assess_impact story) ;;
  let analysis :=
    [ ("headline", get story "headline" VNone);
      ("source", get story "source" VNone);
      ("timestamp", VStr (isoformat t));
      ("type", type);
      ("stakeholders", identify_stakeholders story);
      ("impact", impact);
      ("requires_verification", VBool true) ] in
  if negb (check_story_ethics analysis) then ret [] else ret analysis.

(** One turn of the loop of [fact_check]; the [print] of either branch
    evaluates [fact['claim'][:50]]. *)
Definition check_fact (fact : pyval) (verified_facts : list pyval)
  : M pipeline (list pyval + Empty_set) :=
  let check1 := check_primary_source fact in
  let check2 := check_secondary_source fact in
  let check3 := check_historical_pattern fact in
  claim <- lift (subscript fact "claim") ;;
  lift (slice_to 50 claim) ;;;
  if forallb id [ check1; check2; check3 ]
  then ret (inl (verified_facts ++ [ fact ])%list)
  else ret (inl verified_facts).

(** ARM 3 *)
Definition fact_check (analysis : dict) : M pipeline dict :=
  let facts_to_check := extract_facts analysis in
  r <- for_loop facts_to_check [] check_fact ;;
  let verified_facts := match r with inl v => v | inr e => match e with end end in
  let analysis := store "verified_facts" (VList verified_facts) analysis in
  let n := Z.of_nat (length verified_facts) in
  let d := Z.of_nat (length facts_to_check) in
  if d =? 0 then raise ZeroDivisionError
  else
    ret (store "verification_rate" (VFloat (Qmake n (Z.to_pos d))) analysis).

(** One turn of the loop of [verify_sources]; returns the source as the
    loop leaves it. *)
Definition verify_source (source : pyval) : M pipeline pyval :=
  let credibility := check_source_credibility source in
  id <- lift (subscript source "id") ;;
  content <- lift (subscript source "content") ;;
  sha_valid <- sha_verify id content ;;
  match source with
  | VDict d =>
      ret (VDict (store "sha_verified" (VBool sha_valid)
                    (store "credibility" credibility d)))
  | _ => raise TypeError
  end.

(** ARM 4: the sources are updated in place, so the list under
    ['sources'] holds the updated dictionaries afterwards. *)
Definition verify_sources (analysis : dict) : M pipeline dict :=
  let listed := get analysis "sources" (VList []) in
  items <- lift (iterate listed) ;;
  r <- for_loop items [] (fun source done =>
         source' <- verify_source source ;;
         ret (inl (done ++ [ source' ])%list : list pyval + Empty_set)) ;;
  match r, lookup "sources" analysis with
  | inl sources', Some (VList _) => ret (store "sources" (VList sources') analysis)
  | _, _ => ret analysis
  end.

(** ARM 5 *)
Definition aggregate_apis (analysis : dict) : M pipeline dict :=
  is_parliament <- lift (contains "parliament" (get analysis "type" (VStr EmptyString))) ;;
  let api_data : dict :=
    if is_parliament then store "parliament" (call_parliament_api analysis) [] else [] in
  let api_data := store "gov_uk" (call_gov_api analysis) api_data in
  let api_data := store "news" (call_news_apis analysis) api_data in
  ret (store "api_data" (VDict api_data) analysis).

(** ARM 6 *)
Definition build_context (analysis : dict) : M pipeline dict :=
  let context :=
    [ ("historical", get_historical_context analysis);
      ("stakeholder_positions", get_stakeholder_positions analysis);
      ("related_events", find_related_events analysis);
      ("future_implications", project_implications analysis) ] in
  ret (store "context" (VDict context) analysis).

(** ARM 7 *)
Definition detect_bias (analysis : dict) : M pipeline dict :=
  items <- lift (iterate (get analysis "sources" (VList []))) ;;
  let sort_source (acc : list pyval * list pyval * list pyval) (source : pyval) :=
    let '(lefts, centers, rights) := acc in
    let bias := calculate_bias source in
    if negb (Qle_bool (- (3 # 10)) bias) then ((lefts ++ [ source ])%list, centers, rights)
    else if negb (Qle_bool bias (3 # 10)) then (lefts, centers, (rights ++ [ source ])%list)
    else (lefts, (centers ++ [ source ])%list, rights) in
  let '(lefts, centers, rights) := fold_left sort_source items ([], [], []) in
  let bias_analysis :=
    [ ("left_sources", VList lefts);
      ("center_sources", VList centers);
      ("right_sources", VList rights);
      ("bias_score", VInt 0) ] in
  ret (store "bias_analysis" (VDict bias_analysis) analysis).

(** ARM 8: the entries of the publication are evaluated in the order they
    are written, so the clock has been read when [json.dumps] is called. *)
Definition prepare_publication (analysis : dict) : M pipeline dict :=
  headline <- lift (getitem analysis "headline") ;;
  let summary := generate_summary analysis in
  sources_cited <- lift (py_len (get analysis "sources" (VList []))) ;;
  t <- now ;;
  dumped <- lift (json_dumps false (VDict analysis)) ;;
  let publication :=
    [ ("headline", headline);
      ("summary", VStr summary);
      ("verified_facts", get analysis "verified_facts" (VList []));
      ("sources_cited", VInt sources_cited);
      ("bias_disclosure", get analysis "bias_analysis" (VDict []));
      ("publication_time", VStr (isoformat t));
      ("website_target", VStr "omniplex.earth");
      ("sha_signature", VStr (SHA256Verifier.compute_hash dumped)) ] in
  approved <- lift (approve_publication publication) ;;
  if truthy approved
  then ret (store "status" (VStr "READY_TO_PUBLISH") publication)
  else ret (store "status" (VStr "NEEDS_HUMAN_REVIEW") publication).

(** The values of [self.arms]: bound methods, called on whatever the
    previous arm returned. *)
Inductive arm_function : Type :=
| Hunter
| Stage (f : dict -> M pipeline dict).

Definition arms : list (string * arm_function) :=
  [ ("1_story_hunter", Hunter);
    ("2_story_analyzer", Stage analyze_story);
    ("3_fact_checker", Stage fact_check);
    ("4_source_verifier", Stage verify_sources);
    ("5_api_aggregator", Stage aggregate_apis);
    ("6_context_builder", Stage build_context);
    ("7_bias_detector", Stage detect_bias);
    ("8_publisher", Stage prepare_publication) ].

Definition call (fn : arm_function) (arg : pyval) : M pipeline pyval :=
  match fn, arg with
  | Stage f, VDict d => r <- f d ;; ret (VDict r)
  | Hunter, VDict d => r <- hunt_stories d ;; ret (VList r)
  | _, _ => raise AttributeError
  end.

(** [run_journalism_pipeline]; [None] is the early [return]. *)
Definition run_journalism_pipeline : outcome pipeline pyval :=
  (stories <- hunt_stories [] ;;
   match stories with
   | [] => ret VNone
   | story :: _ =>
       lift (subscript story "headline") ;;;
       r <- for_loop arms story (fun entry result =>
              let '(arm_name, arm_function) := entry in
              if String.eqb arm_name "1_story_hunter" then ret (inl result)
              else
                result' <- call arm_function result ;;
                ret (inl result' : pyval + Empty_set)) ;;
       match r with
       | inl result => ret result
       | inr e => match e with end
       end
   end) init.

(** Stages applied one after the other, each to the dictionary the one
    before returned, as the loop of [run_journalism_pipeline] does. *)
Fixpoint run_stages (stages : list (dict -> M pipeline dict)) (item : dict)
  : M pipeline dict :=
  match stages with
  | [] => ret item
  | f :: rest => r <- f item ;; run_stages rest r
  end.
End Clocked.







End Journalism.

Example sha256_abc :
  Sha256.hexdigest "abc"
  = "ba7816bf8f01cfea414140de5dae2223b00361a396177a9cb410ff61f20015ad".
Proof. vm_compute. reflexivity. Qed.

Example sha256_empty :
  Sha256.hexdigest EmptyString
  = "e3b0c44298fc1c149afbf4c8996fb92427ae41e4649b934ca495991b7852b855".
Proof. vm_compute. reflexivity. Qed.

Example sha256_two_blocks :
  Sha256.hexdigest "aaaaaaaaaaaaaaaaaaaaaaaaaaaaaaaaaaaaaaaaaaaaaaaaaaaaaaaa"
  = "b35439a4ac6f0948b6d6f9e3c6af0f5f590ce20f1bde7090ef7970686ec6738a".
Proof. vm_compute. reflexivity. Qed.

(** * The integrity ledger *)

Section Ledger.
Context {K : Type} `{Countable K}.
Implicit Types (hashes : gmap K string) (key : K) (data h : string).

Import SHA256Verifier.

Lemma verify_absent hashes key data :
  hashes !! key = None ->
  verify key data hashes = (true, <[key := compute_hash data]> hashes).
Proof. intros Hk. unfold verify. now rewrite Hk. Qed.

Lemma verify_present hashes key data h :
  hashes !! key = Some h ->
  verify key data hashes = (bool_decide (h = compute_hash data), hashes).
Proof. intros Hk. unfold verify. now rewrite Hk. Qed.

Lemma verify_parliament_absent hashes key data :
  hashes !! key = None ->
  verify_parliament key data hashes = (true, <[key := compute_hash data]> hashes).
Proof. intros Hk. unfold verify_parliament. now rewrite Hk. Qed.

(** The second assignment [self.hashes[key] = current] of the Parliament
    body writes the value that is already there. *)
Lemma verify_parliament_present hashes key data h :
  hashes !! key = Some h ->
  verify_parliament key data hashes = (bool_decide (h = compute_hash data), hashes).
Proof.
  intros Hk. unfold verify_parliament. rewrite Hk.
  destruct (decide (h = compute_hash data)) as [->|Hne].
  - rewrite bool_decide_eq_false_2 by (intros Hn; now apply Hn).
    rewrite bool_decide_eq_true_2 by reflexivity.
    now rewrite insert_id.
  - rewrite bool_decide_eq_true_2 by assumption.
    now rewrite bool_decide_eq_false_2.
Qed.

(** The two bodies compute the same function. *)
Lemma verify_parliament_verify hashes key data :
  verify_parliament key data hashes = verify key data hashes.
Proof.
  destruct (hashes !! key) as [h|] eqn:Hk.
  - now rewrite (verify_parliament_present _ _ _ h), (verify_present _ _ _ h).
  - now rewrite verify_parliament_absent, verify_absent.
Qed.

Lemma verify_true_recorded hashes hashes' key data :
  verify key data hashes = (true, hashes') ->
  hashes' !! key = Some (compute_hash data).
Proof.
  destruct (hashes !! key) as [h|] eqn:Hk.
  - rewrite (verify_present _ _ _ h) by assumption. intros [= Hb <-].
    apply bool_decide_eq_true_1 in Hb. now subst h.
  - rewrite verify_absent by assumption. intros [= <-].
    apply lookup_insert_eq.
Qed.

(** Recording twice is recording once: a second identical call changes
    nothing and reports what the first reported. *)
Lemma verify_idempotent hashes key data :
  verify key data (snd (verify key data hashes)) = verify key data hashes.
Proof.
  destruct (hashes !! key) as [h|] eqn:Hk.
  - rewrite (verify_present _ _ _ h Hk). simpl. apply (verify_present _ _ _ h Hk).
  - rewrite (verify_absent _ _ _ Hk). simpl.
    rewrite (verify_present _ _ _ (compute_hash data)) by apply lookup_insert_eq.
    now rewrite bool_decide_eq_true_2.
Qed.

Lemma verify_parliament_idempotent hashes key data :
  verify_parliament key data (snd (verify_parliament key data hashes))
  = verify_parliament key data hashes.
Proof. rewrite !verify_parliament_verify. apply verify_idempotent. Qed.

(** C1. For every ledger and key: when a hash is already recorded for the
    key, presenting the same hash again reports success and leaves the
    stored hashes as they were, and presenting a different hash returns
    [False] and leaves them as they were too (no overwrite).  Both bodies
    of [SHA256Verifier.verify]. *)
Theorem verify_same_is_noop_different_is_rejected hashes key data h :
  hashes !! key = Some h ->
  (compute_hash data = h ->
     verify key data hashes = (true, hashes)
     /\ verify_parliament key data hashes = (true, hashes))
  /\ (compute_hash data <> h ->
     verify key data hashes = (false, hashes)
     /\ verify_parliament key data hashes = (false, hashes)).
Proof.
  intros Hk.
  rewrite (verify_parliament_present _ _ _ _ Hk), (verify_present _ _ _ _ Hk).
  split; intros Hh.
  - rewrite bool_decide_eq_true_2 by congruence. now split.
  - rewrite bool_decide_eq_false_2 by congruence. now split.
Qed.

(** C2 (amended). [verify] leaves the stored hash map as it was whenever
    the key is already recorded, on a match and on a mismatch alike. *)
Theorem verify_recorded_key_does_not_mutate hashes key data h :
  hashes !! key = Some h ->
  snd (verify key data hashes) = hashes
  /\ snd (verify_parliament key data hashes) = hashes.
Proof.
  intros Hk.
  now rewrite (verify_parliament_present _ _ _ _ Hk), (verify_present _ _ _ _ Hk).
Qed.


End Ledger.

Lemma verify_same_is_noop_different_is_rejected_witness :
  let ledger : gmap string string :=
    {[ "story-1" := SHA256Verifier.compute_hash "abc" ]} in
  (SHA256Verifier.verify "story-1" "abc" ledger = (true, ledger)
   /\ SHA256Verifier.verify_parliament "story-1" "abc" ledger = (true, ledger))
  /\ (SHA256Verifier.verify "story-1" "abd" ledger = (false, ledger)
      /\ SHA256Verifier.verify_parliament "story-1" "abd" ledger = (false, ledger)).
Proof.
  intros ledger.
  assert (Hk : ledger !! "story-1" = Some (SHA256Verifier.compute_hash "abc"))
    by apply lookup_singleton_eq.
  split.
  - apply (verify_same_is_noop_different_is_rejected ledger "story-1" "abc" _ Hk).
    reflexivity.
  - apply (verify_same_is_noop_different_is_rejected ledger "story-1" "abd" _ Hk).
    vm_compute. discriminate.
Defined.

(** C2, as stated, fails: the first [verify] of a key stores its hash. *)
Lemma verify_first_use_mutates :
  snd (SHA256Verifier.verify "story-1" "abc" (∅ : gmap string string)) <> ∅.
Proof.
  rewrite verify_absent by apply lookup_empty.
  simpl. apply insert_non_empty.
Qed.

Lemma verify_recorded_key_does_not_mutate_witness :
  let ledger : gmap string string :=
    {[ "story-1" := SHA256Verifier.compute_hash "abc" ]} in
  snd (SHA256Verifier.verify "story-1" "tampered" ledger) = ledger
  /\ snd (SHA256Verifier.verify_parliament "story-1" "tampered" ledger) = ledger.
Proof.
  intros ledger.
  apply (verify_recorded_key_does_not_mutate ledger "story-1" "tampered"
           (SHA256Verifier.compute_hash "abc")).
  apply lookup_singleton_eq.
Defined.


(** * Insertion-ordered dictionaries *)

Section AlistFacts.
Import Py.
Context {V : Type}.
Implicit Types (d : list (string * V)) (k : string) (v : V).

Lemma lookup_store_eq d k v : lookup k (store k v d) = Some v.
Proof.
  induction d as [|[k' v'] d IH]; simpl.
  - now rewrite String.eqb_refl.
  - destruct (String.eqb k k') eqn:E; simpl; rewrite E; [reflexivity | exact IH].
Qed.

Lemma lookup_store_ne d k k' v :
  k <> k' -> lookup k' (store k v d) = lookup k' d.
Proof.
  intros Hne. induction d as [|[k0 v0] d IH]; simpl.
  - destruct (String.eqb k' k) eqn:E; [|reflexivity].
    apply String.eqb_eq in E. congruence.
  - destruct (String.eqb k k0) eqn:E; simpl.
    + apply String.eqb_eq in E. subst k0.
      destruct (String.eqb k' k) eqn:E'; [|reflexivity].
      apply String.eqb_eq in E'. congruence.
    + now rewrite IH.
Qed.

Lemma length_store_present d k v v0 :
  lookup k d = Some v0 -> length (store k v d) = length d.
Proof.
  induction d as [|[k' v'] d IH]; simpl; [discriminate|].
  destruct (String.eqb k k'); simpl; [reflexivity|].
  intros Hk. now rewrite IH.
Qed.

Lemma lookup_map_values {W : Type} (f : V -> W) d k :
  lookup k (map (fun kv => (fst kv, f (snd kv))) d) = option_map f (lookup k d).
Proof.
  induction d as [|[k' v'] d IH]; simpl; [reflexivity|].
  destruct (String.eqb k k'); [reflexivity | exact IH].
Qed.
End AlistFacts.

(** * Facts about [json.dumps] *)

Section JsonFacts.
Import Py.


End JsonFacts.

(** * Reasoning about methods *)

Section Keeps.
Import Py.
Context {S : Type} (R : S -> S -> Prop) {HR : PreOrder R}.

Lemma keeps_ret {A : Type} (a : A) : keeps R (ret a).
Proof. intros s. simpl. reflexivity. Qed.

Lemma keeps_lift {A : Type} (r : res A) : keeps R (lift r).
Proof. intros s. unfold lift. destruct r; simpl; reflexivity. Qed.

Lemma keeps_gets {A : Type} (f : S -> A) : keeps R (gets f).
Proof. intros s. simpl. reflexivity. Qed.

Lemma keeps_modify (f : S -> S) : (forall s, R s (f s)) -> keeps R (modify f).
Proof. intros Hf s. simpl. apply Hf. Qed.

Lemma keeps_bind {A B : Type} (m : M S A) (f : A -> M S B) :
  keeps R m -> (forall a, keeps R (f a)) -> keeps R (bind m f).
Proof.
  intros Hm Hf s. unfold bind. specialize (Hm s).
  destruct (m s) as [a s'|e s']; simpl in *.
  - transitivity s'; [assumption | apply Hf].
  - assumption.
Qed.

Lemma keeps_for_loop {A B C : Type} (l : list A) (body : A -> B -> M S (B + C)) :
  (forall x acc, keeps R (body x acc)) ->
  forall acc, keeps R (for_loop l acc body).
Proof.
  intros Hbody. induction l as [|x l IH]; intros acc; simpl.
  - apply keeps_ret.
  - apply keeps_bind; [apply Hbody|].
    intros [acc'|v]; [apply IH | apply keeps_ret].
Qed.
End Keeps.

Create HintDb keeps discriminated.

(** Splits a method at its first statement, or closes it with a hint. *)
Ltac keeps_step :=
  first
    [ solve [ auto 1 with keeps nocore ]
    | apply keeps_ret; exact _
    | apply keeps_lift; exact _
    | apply keeps_gets; exact _
    | apply keeps_bind; [exact _ | | intros ?]
    | apply keeps_for_loop; [exact _ | intros ? ?]
    | match goal with
      | |- Py.keeps _ (if ?c then _ else _) => destruct c
      | |- Py.keeps _ (let '(_, _) := ?p in _) => destruct p
      | |- Py.keeps _ (match ?x with inl _ => _ | inr _ => _ end) => destruct x
      | |- Py.keeps _ (let _ := _ in _) => cbv zeta
      | e : Empty_set |- _ => destruct e
      end ].

Ltac keeps_steps := repeat keeps_step.

(** * The Parliament brain *)

Section ParliamentBrain.
Import Py Datetime Parliament.
Variable clk : clock.
Implicit Types (b : brain) (arm_name : string).

#[local] Instance stays_frozen_preorder : PreOrder stays_frozen.
Proof.
  split.
  - intros b Hb. exact Hb.
  - intros b1 b2 b3 H12 H23 Hb. apply H23, H12, Hb.
Qed.

Lemma check_true action data : check action data = true.
Proof.
  unfold check, human_judgment_preserved, zero_manipulation_check.
  simpl. now rewrite andb_false_r.
Qed.

(** A statement that does not assign [self.frozen]. *)
Ltac frozen_untouched :=
  intros ? Hfrozen; simpl;
  repeat match goal with
         | |- context [lift ?r _] => destruct r; simpl
         end;
  exact Hfrozen.

Lemma now_keeps_frozen : keeps stays_frozen (now clk).
Proof. frozen_untouched. Qed.

Lemma freeze_keeps_frozen reason : keeps stays_frozen (freeze reason).
Proof. intros b Hb. reflexivity. Qed.

#[local] Hint Resolve now_keeps_frozen freeze_keeps_frozen : keeps.

Lemma drift_check_keeps_frozen : keeps stays_frozen (drift_check clk).
Proof. unfold drift_check. keeps_steps; frozen_untouched. Qed.

Lemma triple_verify_keeps_frozen data : keeps stays_frozen (triple_verify clk data).
Proof. unfold triple_verify. keeps_steps; frozen_untouched. Qed.

Lemma fetch_keeps_frozen arm_name :
  keeps stays_frozen (fetch_parliament_data clk arm_name).
Proof. unfold fetch_parliament_data. keeps_steps. Qed.

Lemma count_error_keeps_frozen arm_name : keeps stays_frozen (count_error arm_name).
Proof. unfold count_error. keeps_steps; frozen_untouched. Qed.

#[local] Hint Resolve drift_check_keeps_frozen triple_verify_keeps_frozen
  fetch_keeps_frozen count_error_keeps_frozen : keeps.

Lemma process_arm_keeps_frozen arm_name :
  keeps stays_frozen (process_arm clk arm_name).
Proof. unfold process_arm. keeps_steps. Qed.

#[local] Hint Resolve process_arm_keeps_frozen : keeps.

Lemma gather_keeps_frozen : keeps stays_frozen (gather_intelligence clk).
Proof. unfold gather_intelligence. keeps_steps; frozen_untouched. Qed.

#[local] Hint Resolve gather_keeps_frozen : keeps.

Lemma run_loop_keeps_frozen fuel : keeps stays_frozen (run_loop clk fuel).
Proof.
  induction fuel as [|fuel IH]; simpl; keeps_steps; frozen_untouched.
Qed.

Lemma step_keeps_frozen b o : stays_frozen b (step clk b o).
Proof.
  destruct o; simpl.
  - exact (drift_check_keeps_frozen b).
  - exact (triple_verify_keeps_frozen data b).
  - exact (fetch_keeps_frozen arm_name b).
  - exact (process_arm_keeps_frozen arm_name b).
  - exact (gather_keeps_frozen b).
  - exact (run_loop_keeps_frozen 100 b).
  - exact (freeze_keeps_frozen reason b).
Qed.

Lemma trace_keeps_frozen ops b : stays_frozen b (trace clk ops b).
Proof.
  revert b. induction ops as [|o ops IH]; intros b; simpl.
  - reflexivity.
  - transitivity (step clk b o); [apply step_keeps_frozen | apply IH].
Qed.

Lemma main_frozen_or_finished :
  stays_frozen (state_of (run clk (init clk))) (main clk).
Proof.
  unfold main. destruct (run clk (init clk)); simpl; intros Hb;
    [exact Hb | reflexivity].
Qed.

End ParliamentBrain.

(** * The Westminster watch *)

Section WestminsterWatch.
Import Py Datetime We333.
Variable clk : clock.
Implicit Types (w : watch) (arm_name : string).

#[local] Instance we333_stays_frozen_preorder : PreOrder stays_frozen.
Proof.
  split.
  - intros w Hw. exact Hw.
  - intros w1 w2 w3 H12 H23 Hw. apply H23, H12, Hw.
Qed.

Ltac frozen_untouched :=
  intros ? Hfrozen; simpl;
  repeat match goal with
         | |- context [lift ?r _] => destruct r; simpl
         | |- context [lookup ?k ?d] => destruct (lookup k d); simpl
         end;
  exact Hfrozen.

Lemma we333_now_keeps_frozen : keeps stays_frozen (now clk).
Proof. frozen_untouched. Qed.

Lemma we_freeze_keeps_frozen reason : keeps stays_frozen (we_freeze clk reason).
Proof. intros w Hw. reflexivity. Qed.

#[local] Hint Resolve we333_now_keeps_frozen we_freeze_keeps_frozen : keeps.

Lemma we333_drift_check_keeps_frozen : keeps stays_frozen (we333_drift_check clk).
Proof. unfold we333_drift_check. keeps_steps; frozen_untouched. Qed.

Lemma we333_triple_check_keeps_frozen data :
  keeps stays_frozen (we333_triple_check clk data).
Proof. unfold we333_triple_check. keeps_steps. Qed.

Lemma collect_keeps_frozen arm_name :
  keeps stays_frozen (collect_from_arm clk arm_name).
Proof. unfold collect_from_arm. keeps_steps. Qed.

Lemma update_arm_keeps_frozen arm_name f :
  keeps stays_frozen (update_arm arm_name f).
Proof. unfold update_arm. frozen_untouched. Qed.

#[local] Hint Resolve we333_drift_check_keeps_frozen
  we333_triple_check_keeps_frozen collect_keeps_frozen
  update_arm_keeps_frozen : keeps.

Lemma collaborative_gather_keeps_frozen :
  keeps stays_frozen (collaborative_gather clk).
Proof.
  unfold collaborative_gather, arm_field. keeps_steps; frozen_untouched.
Qed.

#[local] Hint Resolve collaborative_gather_keeps_frozen : keeps.

Lemma we333_run_loop_keeps_frozen fuel : keeps stays_frozen (run_loop clk fuel).
Proof.
  induction fuel as [|fuel IH]; simpl; keeps_steps; try frozen_untouched.
  match goal with
  | |- keeps _ (match lookup ?k ?d with _ => _ end) => destruct (lookup k d)
  end; keeps_steps.
Qed.

Lemma we333_step_keeps_frozen w o : stays_frozen w (step clk w o).
Proof.
  destruct o; simpl.
  - exact (we333_drift_check_keeps_frozen w).
  - exact (we333_triple_check_keeps_frozen data w).
  - exact (collect_keeps_frozen arm_name w).
  - exact (collaborative_gather_keeps_frozen w).
  - exact (we333_run_loop_keeps_frozen fuel w).
  - exact (we_freeze_keeps_frozen reason w).
Qed.

Lemma we333_trace_keeps_frozen ops w : stays_frozen w (trace clk ops w).
Proof.
  revert w. induction ops as [|o ops IH]; intros w; simpl.
  - reflexivity.
  - transitivity (step clk w o); [apply we333_step_keeps_frozen | apply IH].
Qed.

End WestminsterWatch.

(** * Escalation in the Parliament brain *)

Section ParliamentEscalation.
Import Py Datetime Parliament.
Variable clk : clock.
Implicit Types (b : brain) (arm_name : string).

(** Unfolds the statements of a method, not the values they handle. *)
Ltac run_method :=
  cbv beta iota zeta delta
    [ process_arm fetch_and_verify fetch_parliament_data triple_verify
      count_error drift_check freeze bind now gets modify ret lift getitem
      with_hashes with_arms with_frozen with_last_drift state_of value_of
      hashes frozen last_drift arms ticks ].

Lemma process_arm_cases arm_name b :
  exists data ok h,
    let b1 := Brain h (frozen b) (last_drift b) (arms b) (S (S (ticks b))) in
    fetch_and_verify clk arm_name b = Returns (data, ok) b1
    /\ process_arm clk arm_name b =
         if ok then Returns data b1
         else
           match lookup arm_name (arms b) with
           | None => Raises (KeyError arm_name) b1
           | Some a =>
               let arms' :=
                 store arm_name (Arm (status a) (errors a + 1)) (arms b) in
               Returns []
                 (if 3 <=? errors a + 1
                  then Brain h true (last_drift b) (freeze_arms arms')
                         (S (S (ticks b)))
                  else Brain h (frozen b) (last_drift b) arms' (S (S (ticks b))))
           end.
Proof.
  unfold process_arm. rewrite check_true. cbn [negb].
  destruct b as [h0 fz ld ar tk]. run_method.
  cbn [json_dumps rbind]. run_method.
  match goal with
  | |- context [SHA256Verifier.verify_parliament ?k ?d ?h] =>
      destruct (SHA256Verifier.verify_parliament k d h) as [sha_ok h'] eqn:Hsha
  end.
  match goal with
  | |- context [negb (forallb id ?l)] => destruct (negb (forallb id l))
  end.
  - eexists _, false, h'. split; [reflexivity|]. cbn [negb].
    destruct (lookup arm_name ar) as [a|]; [|reflexivity].
    destruct (3 <=? errors a + 1); reflexivity.
  - eexists _, true, h'. split; reflexivity.
Qed.

#[local] Instance escalation_preorder by_drift : PreOrder (escalation by_drift).
Proof.
  split.
  - intros b. split; [reflexivity|]. split.
    + intros arm_name a Ha. exists a. split; [assumption | lia].
    + congruence.
  - intros b1 b2 b3 (Hlen12 & Herr12 & Hfz12) (Hlen23 & Herr23 & Hfz23).
    split; [congruence|]. split.
    + intros arm_name a Ha.
      destruct (Herr12 _ _ Ha) as (a2 & Ha2 & Hle2).
      destruct (Herr23 _ _ Ha2) as (a3 & Ha3 & Hle3).
      exists a3. split; [assumption | lia].
    + intros Hb1 Hb3. destruct (frozen b2) eqn:Hb2.
      * destruct (Hfz12 Hb1 eq_refl) as [(arm_name & a & Ha & Hge)|Hdrift].
        -- left. destruct (Herr23 _ _ Ha) as (a3 & Ha3 & Hle3).
           exists arm_name, a3. split; [assumption | lia].
        -- now right.
      * destruct (Hfz23 eq_refl Hb3) as [Hex|[Hd Hlen]]; [now left|].
        right. split; [assumption|]. now rewrite <- Hlen12.
Qed.

(** A state with the same arms and the same flag. *)
Lemma escalation_same_arms by_drift b b' :
  arms b' = arms b -> frozen b' = frozen b -> escalation by_drift b b'.
Proof.
  intros Harms Hfz. split; [now rewrite Harms|]. split.
  - intros arm_name a Ha. exists a. rewrite Harms. split; [assumption | lia].
  - congruence.
Qed.

Lemma process_arm_escalation by_drift arm_name :
  keeps (escalation by_drift) (process_arm clk arm_name).
Proof.
  intros b. destruct (process_arm_cases arm_name b) as (data & ok & h & _ & ->).
  destruct ok; [now apply escalation_same_arms|].
  destruct (lookup arm_name (arms b)) as [a|] eqn:Ha;
    [|now apply escalation_same_arms].
  cbn [state_of].
  assert (Hstore : forall k x, lookup k (arms b) = Some x ->
            exists x', lookup k (store arm_name (Arm (status a) (errors a + 1)) (arms b))
                       = Some x' /\ errors x <= errors x').
  { intros k x Hk. destruct (String.eqb_spec arm_name k) as [->|Hne].
    - rewrite lookup_store_eq. eexists. split; [reflexivity|].
      simpl. assert (x = a) by congruence. subst x. lia.
    - rewrite lookup_store_ne by assumption. exists x. split; [assumption | lia]. }
  destruct (3 <=? errors a + 1) eqn:Hge; split; cbn [arms frozen].
  - unfold freeze_arms. rewrite length_map. eapply length_store_present, Ha.
  - split.
    + intros k x Hk. destruct (Hstore _ _ Hk) as (x' & Hx' & Hle).
      unfold freeze_arms.
      rewrite (lookup_map_values (fun x => Arm "frozen" (errors x))), Hx'.
      eexists. split; [reflexivity | simpl; lia].
    + intros _ _. left. exists arm_name. eexists. cbn [arms]. split.
      * unfold freeze_arms.
        rewrite (lookup_map_values (fun x => Arm "frozen" (errors x))), lookup_store_eq.
        reflexivity.
      * simpl. lia.
  - eapply length_store_present, Ha.
  - split; [exact Hstore | congruence].
Qed.

#[local] Hint Resolve process_arm_escalation : keeps.

Ltac arms_untouched :=
  intros ?; apply escalation_same_arms; reflexivity.

Lemma gather_escalation by_drift :
  keeps (escalation by_drift) (gather_intelligence clk).
Proof. unfold gather_intelligence. keeps_steps; arms_untouched. Qed.

(** The flag after a drift check: set by the eight-arms check, the only
    one of the five that can fail, once thirty minutes have passed. *)
Lemma drift_check_frozen b :
  frozen (state_of (drift_check clk b))
  = frozen b
    || (elapsed_more_than 30 (clk (ticks b)) (last_drift b)
        && negb (Z.of_nat (length (arms b)) =? 8)).
Proof.
  destruct b as [h fz ld ar tk]. run_method.
  destruct (elapsed_more_than 30 (clk tk) ld); cbn [andb];
    [|now rewrite orb_false_r].
  unfold check_parliament_focus. cbn [forallb id andb].
  destruct (Z.of_nat (length ar) =? 8); cbn [negb andb];
    [now rewrite orb_false_r | now rewrite orb_true_r].
Qed.

Lemma drift_check_escalation : keeps (escalation true) (drift_check clk).
Proof.
  intros b. pose proof (drift_check_frozen b) as Hfz. revert Hfz.
  destruct b as [h fz ld ar tk]. run_method.
  destruct (elapsed_more_than 30 (clk tk) ld); cbn [andb];
    [|intros _; now apply escalation_same_arms].
  unfold check_parliament_focus. cbn [forallb id andb].
  destruct (Z.of_nat (length ar) =? 8) eqn:Hlen; cbn [negb andb];
    [intros _; now apply escalation_same_arms|].
  intros _. split; cbn [arms frozen].
  - unfold freeze_arms. now rewrite length_map.
  - split.
    + intros arm_name a Ha. unfold freeze_arms.
      rewrite (lookup_map_values (fun x => Arm "frozen" (errors x))), Ha.
      eexists. split; [reflexivity | simpl; lia].
    + intros _ _. right. split; [reflexivity|].
      now apply Z.eqb_neq.
Qed.

Lemma gather_escalation_by_drift : keeps (escalation true) (gather_intelligence clk).
Proof. apply gather_escalation. Qed.

#[local] Hint Resolve drift_check_escalation gather_escalation_by_drift : keeps.

Lemma run_loop_escalation fuel : keeps (escalation true) (run_loop clk fuel).
Proof.
  induction fuel as [|fuel IH]; simpl; keeps_steps; arms_untouched.
Qed.

(** In the Parliament brain the flag is newly set by the drift check, when
    its eight-arms check fails, or by [process_arm], exactly when the
    verification of that arm fails and brings its own error count to
    three.  Gathering and the main loop set it through these two only, and
    fetching and verifying never do. *)
Lemma frozen_causes b o :
  frozen b = false ->
  frozen (step clk b o) = true ->
  match o with
  | DriftCheck => Z.of_nat (length (arms b)) <> 8
  | ProcessArm arm_name =>
      exists data a,
        value_of (fetch_and_verify clk arm_name b) = Some (data, false)
        /\ lookup arm_name (arms b) = Some a
        /\ 3 <= errors a + 1
  | GatherIntelligence => arm_exhausted (step clk b o)
  | Run => arm_exhausted (step clk b o) \/ Z.of_nat (length (arms b)) <> 8
  | Freeze _ => True
  | TripleVerify _ | FetchData _ => False
  end.
Proof.
  intros Hb. destruct o; cbn [step].
  - rewrite drift_check_frozen, Hb. cbn [orb]. intros Hd.
    apply andb_true_iff in Hd as [_ Hlen].
    apply negb_true_iff in Hlen. now apply Z.eqb_neq.
  - intros Hb'.
    destruct b as [h fz ld ar tk]. revert Hb'. run_method.
    destruct (json_dumps true (VDict data)) as [text|e]; run_method;
      [|cbn [frozen] in *; congruence].
    match goal with
    | |- context [SHA256Verifier.verify_parliament ?k ?d ?h] =>
        destruct (SHA256Verifier.verify_parliament k d h)
    end.
    match goal with
    | |- context [negb (forallb id ?l)] => destruct (negb (forallb id l))
    end; cbn [frozen] in *; congruence.
  - destruct b as [h fz ld ar tk]. run_method. cbn [frozen] in *. congruence.
  - destruct (process_arm_cases arm_name b) as (data & ok & h & Hfv & ->).
    rewrite Hfv. cbn [value_of].
    destruct ok; [cbn [state_of frozen]; congruence|].
    destruct (lookup arm_name (arms b)) as [a|];
      [|cbn [state_of frozen]; congruence].
    cbn [state_of]. destruct (3 <=? errors a + 1) eqn:Hge;
      [|cbn [frozen]; congruence].
    intros _. exists data, a. repeat split. now apply Z.leb_le.
  - intros Hb'.
    destruct (gather_escalation false b) as (_ & _ & Hfz).
    destruct (Hfz Hb Hb') as [Hex|[Hd _]]; [exact Hex | discriminate].
  - intros Hb'.
    destruct (run_loop_escalation 100 b) as (_ & _ & Hfz).
    destruct (Hfz Hb Hb') as [Hex|[_ Hlen]]; [now left | now right].
  - trivial.
Qed.


(** A verification that succeeds counts nothing and freezes nothing. *)
Lemma process_arm_success arm_name b data :
  value_of (fetch_and_verify clk arm_name b) = Some (data, true) ->
  let b' := state_of (process_arm clk arm_name b) in
  value_of (process_arm clk arm_name b) = Some data
  /\ arms b' = arms b
  /\ frozen b' = frozen b.
Proof.
  intros Hok.
  destruct (process_arm_cases arm_name b) as (data' & ok & h & Hfv & Hpa).
  rewrite Hfv in Hok. cbn [value_of] in Hok.
  assert (ok = true) by congruence. subst ok.
  assert (data' = data) by congruence. subst data'.
  cbv zeta. rewrite Hpa. now repeat split.
Qed.

End ParliamentEscalation.

(** * The watch never counts a failure *)

Section WatchNeverFails.
Import Py Datetime We333.
Variable clk : clock.
Implicit Types (w : watch) (arm_name : string).

#[local] Instance no_failure_preorder : PreOrder no_failure.
Proof.
  split.
  - intros w. split; [reflexivity|].
    intros arm_name a Ha. exists a. now repeat split.
  - intros w1 w2 w3 (Hfz12 & Harm12) (Hfz23 & Harm23).
    split; [congruence|]. intros arm_name a Ha.
    destruct (Harm12 _ _ Ha) as (a2 & Ha2 & Hs2 & He2).
    destruct (Harm23 _ _ Ha2) as (a3 & Ha3 & Hs3 & He3).
    exists a3. repeat split; congruence.
Qed.

(** The three source checks and the human check are constants. *)
Lemma we333_triple_check_true data w :
  we333_triple_check clk data w = Returns true w.
Proof. reflexivity. Qed.

Lemma keeps_after_triple_check {A : Type} (R : watch -> watch -> Prop)
    data (f : bool -> M watch A) :
  keeps R (f true) -> keeps R (bind (we333_triple_check clk data) f).
Proof.
  intros Hf w. unfold bind. rewrite we333_triple_check_true. apply Hf.
Qed.

Lemma no_failure_same_arms w w' :
  arms w' = arms w -> frozen w' = frozen w -> no_failure w w'.
Proof.
  intros Harms Hfz. split; [assumption|].
  intros arm_name a Ha. exists a. rewrite Harms. now repeat split.
Qed.

Lemma update_arm_no_failure arm_name (f : arm -> arm) :
  (forall a, status (f a) = status a /\ errors (f a) = errors a) ->
  keeps no_failure (update_arm arm_name f).
Proof.
  intros Hf w. unfold update_arm, modify. cbn [state_of].
  destruct (lookup arm_name (arms w)) as [a0|] eqn:Ha0;
    [|now apply no_failure_same_arms].
  split; [reflexivity|]. intros k a Hk. cbn [arms with_arms].
  destruct (String.eqb_spec arm_name k) as [->|Hne].
  - rewrite lookup_store_eq. exists (f a0).
    assert (a = a0) by congruence. subst a.
    split; [reflexivity | apply Hf].
  - rewrite lookup_store_ne by assumption. exists a. now repeat split.
Qed.

Ltac arms_untouched :=
  intros ?; apply no_failure_same_arms; reflexivity.

(** As the script stands no verification fails, so gathering counts no
    error and sets no flag. *)
Lemma collaborative_gather_no_failure :
  keeps no_failure (collaborative_gather clk).
Proof.
  unfold collaborative_gather, arm_field, collect_from_arm.
  repeat first [ apply keeps_after_triple_check | keeps_step ];
    try arms_untouched.
  apply update_arm_no_failure. intros ?. now split.
Qed.

End WatchNeverFails.

(** * Freezing: fail fast, and no way back *)

(** C4. While the engine is frozen the gather operation returns its status
    report at once and leaves the whole state, and with it the status, the
    error count and the last data of every arm, as it was. *)
Theorem gather_fails_fast_when_frozen
    (clk : Datetime.clock) (b : Parliament.brain) (w : We333.watch) :
  Parliament.frozen b = true ->
  We333.frozen w = true ->
  Parliament.gather_intelligence clk b
    = Py.Returns [ ("status", Py.VStr "frozen") ] b
  /\ We333.collaborative_gather clk w
     = Py.Returns [ ("status", Py.VStr "WE are reviewing together") ] w.
Proof.
  intros Hb Hw. split.
  - unfold Parliament.gather_intelligence, Py.bind, Py.gets. now rewrite Hb.
  - unfold We333.collaborative_gather, Py.bind, Py.gets. now rewrite Hw.
Qed.

Lemma gather_fails_fast_when_frozen_witness :
  let clk := Datetime.ticking_clock in
  let b := Parliament.step clk (Parliament.init clk) (Parliament.Freeze "halt") in
  let w := We333.step clk (We333.init clk) (We333.WeFreeze "halt") in
  Parliament.gather_intelligence clk b
    = Py.Returns [ ("status", Py.VStr "frozen") ] b
  /\ We333.collaborative_gather clk w
     = Py.Returns [ ("status", Py.VStr "WE are reviewing together") ] w.
Proof.
  intros clk b w.
  apply (gather_fails_fast_when_frozen clk b w); reflexivity.
Defined.

(** C5. No operation of either engine clears the flag: along every sequence
    of drift checks, verifications, fetches, arm runs, gathers, main loops
    and freezes, a frozen engine stays frozen. *)
Theorem frozen_is_never_cleared
    (clk : Datetime.clock)
    (ops : list Parliament.op) (b : Parliament.brain)
    (ops' : list We333.op) (w : We333.watch) :
  Parliament.frozen b = true ->
  We333.frozen w = true ->
  Parliament.frozen (Parliament.trace clk ops b) = true
  /\ We333.frozen (We333.trace clk ops' w) = true.
Proof.
  intros Hb Hw. split.
  - now apply trace_keeps_frozen.
  - now apply we333_trace_keeps_frozen.
Qed.

Lemma frozen_is_never_cleared_witness :
  let clk := Datetime.ticking_clock in
  let b := Parliament.step clk (Parliament.init clk) (Parliament.Freeze "halt") in
  let w := We333.step clk (We333.init clk) (We333.WeFreeze "halt") in
  Parliament.frozen
    (Parliament.trace clk
       [ Parliament.DriftCheck; Parliament.GatherIntelligence;
         Parliament.ProcessArm "bills_monitor"; Parliament.Run ] b) = true
  /\ We333.frozen
       (We333.trace clk
          [ We333.DriftCheck; We333.CollaborativeGather; We333.Run 3 ] w) = true.
Proof.
  intros clk b w.
  apply (frozen_is_never_cleared clk _ b _ w); reflexivity.
Defined.

(** * One arm freezes the brain *)

Example after_three_gathers_errors :
  Parliament.frozen Parliament.after_three_gathers = false
  /\ map (fun kv => Parliament.errors (snd kv)) (Parliament.arms Parliament.after_three_gathers)
     = [ 2; 2; 2; 2; 2; 2; 2; 2 ].
Proof. vm_compute. split; reflexivity. Qed.

(** C3, as stated, fails: with eight arms in place, so that no drift check
    can fail, the third failure of [bills_monitor] alone sets the flag. *)
Lemma one_arm_failure_freezes_the_brain :
  Parliament.frozen Parliament.after_three_gathers = false
  /\ length (Parliament.arms Parliament.after_three_gathers) = 8%nat
  /\ Parliament.frozen
       (Parliament.step Datetime.ticking_clock Parliament.after_three_gathers
          (Parliament.ProcessArm "bills_monitor")) = true.
Proof. vm_compute. repeat split; reflexivity. Qed.

(** C3 (amended). The flag is newly set by the drift check, when its
    eight-arms check fails, by an explicit call of [freeze], or as the
    direct consequence of one arm: [process_arm] sets it only when the
    verification of that arm fails and brings the arm's own error count to
    three or more.  Gathering and the main loop of the Parliament brain set
    it through these only, fetching and verifying never do; in the
    Westminster watch the verification cannot fail, and gathering leaves the
    flag as it was. *)
Theorem frozen_set_by_drift_check_or_one_exhausted_arm
    (clk : Datetime.clock) (b : Parliament.brain) (o : Parliament.op)
    (w : We333.watch) (data : Py.pyval) :
  Parliament.frozen b = false ->
  Parliament.frozen (Parliament.step clk b o) = true ->
  match o with
  | Parliament.DriftCheck => Z.of_nat (length (Parliament.arms b)) <> 8
  | Parliament.ProcessArm arm_name =>
      exists fetched a,
        Py.value_of (Parliament.fetch_and_verify clk arm_name b) = Some (fetched, false)
        /\ Py.lookup arm_name (Parliament.arms b) = Some a
        /\ 3 <= Parliament.errors a + 1
  | Parliament.GatherIntelligence =>
      Parliament.arm_exhausted (Parliament.step clk b o)
  | Parliament.Run =>
      Parliament.arm_exhausted (Parliament.step clk b o)
      \/ Z.of_nat (length (Parliament.arms b)) <> 8
  | Parliament.Freeze _ => True
  | Parliament.TripleVerify _ | Parliament.FetchData _ => False
  end
  /\ We333.we333_triple_check clk data w = Py.Returns true w
  /\ We333.frozen (Py.state_of (We333.collaborative_gather clk w)) = We333.frozen w.
Proof.
  intros Hb Hb'. split; [now apply frozen_causes|]. split.
  - apply we333_triple_check_true.
  - apply (collaborative_gather_no_failure clk w).
Qed.

Lemma frozen_set_by_drift_check_or_one_exhausted_arm_witness :
  exists fetched a,
    Py.value_of
      (Parliament.fetch_and_verify Datetime.ticking_clock "bills_monitor"
         Parliament.after_three_gathers) = Some (fetched, false)
    /\ Py.lookup "bills_monitor" (Parliament.arms Parliament.after_three_gathers)
       = Some a
    /\ 3 <= Parliament.errors a + 1.
Proof.
  refine (proj1
    (frozen_set_by_drift_check_or_one_exhausted_arm Datetime.ticking_clock
       Parliament.after_three_gathers (Parliament.ProcessArm "bills_monitor")
       (We333.init Datetime.ticking_clock) Py.VNone _ _));
    vm_compute; reflexivity.
Defined.

(** The second failure of an arm, one gather earlier, freezes nothing. *)
Example second_failure_does_not_freeze :
  let b := Parliament.trace Datetime.ticking_clock
             [ Parliament.GatherIntelligence; Parliament.GatherIntelligence ]
             (Parliament.init Datetime.ticking_clock) in
  let b' := Parliament.step Datetime.ticking_clock b
              (Parliament.ProcessArm "bills_monitor") in
  Parliament.arm_errors "bills_monitor" b = Some 1
  /\ Parliament.arm_errors "bills_monitor" b' = Some 2
  /\ Parliament.frozen b' = false.
Proof. vm_compute. repeat split; reflexivity. Qed.

(** The script as it runs: the fourth gather of [main] freezes the brain. *)
Example main_ends_frozen :
  Parliament.frozen (Parliament.main Datetime.ticking_clock) = true.
Proof. vm_compute. reflexivity. Qed.

(** * The journalism pipeline *)

Section JournalismPipeline.
Import Py Datetime Journalism.
Variable clk : clock.
Implicit Types (p : pipeline) (analysis publication : dict).

(** C9 (amended). [check_story_ethics] and [OmniplexConstitution.check]
    return [True] for every input.  [approve_publication] is a real check:
    when it returns, its value is truthy exactly when [verified_facts] is
    truthy and [sources_cited] is greater than zero. *)
Theorem ethics_stubs_and_publication_gate
    (story : dict) (action : string) (data : pyval) publication (verdict : pyval) :
  approve_publication publication = Ok verdict ->
  check_story_ethics story = true
  /\ Parliament.check action data = true
  /\ (truthy verdict = true <->
        truthy (get publication "verified_facts" VNone) = true
        /\ gt_int (get publication "sources_cited" (VInt 0)) 0 = Ok true).
Proof.
  intros Hv. split; [reflexivity|]. split; [apply check_true|].
  unfold approve_publication in Hv.
  destruct (truthy (get publication "verified_facts" VNone)) eqn:Hfacts.
  - destruct (gt_int (get publication "sources_cited" (VInt 0)) 0) as [c|e];
      cbn [rbind] in Hv; [|discriminate].
    injection Hv as <-. cbn [truthy]. split.
    + intros ->. now split.
    + intros [_ Hc]. congruence.
  - injection Hv as <-. rewrite Hfacts. split; [discriminate|].
    intros [Hf _]. discriminate.
Qed.


End JournalismPipeline.

Lemma ethics_stubs_and_publication_gate_witness :
  Journalism.check_story_ethics [ ("headline", Py.VStr "Budget vote") ] = true
  /\ Parliament.check "fetch_bills_monitor" (Py.VStr "bills_monitor") = true
  /\ (Py.truthy (Py.VBool true) = true <->
        Py.truthy
          (Py.get [ ("verified_facts", Py.VList [ Py.VStr "The vote is on Tuesday" ]);
                    ("sources_cited", Py.VInt 1) ]
                  "verified_facts" Py.VNone) = true
        /\ Py.gt_int
             (Py.get [ ("verified_facts", Py.VList [ Py.VStr "The vote is on Tuesday" ]);
                       ("sources_cited", Py.VInt 1) ]
                     "sources_cited" (Py.VInt 0)) 0 = Py.Ok true).
Proof.
  apply (ethics_stubs_and_publication_gate
           [ ("headline", Py.VStr "Budget vote") ]
           "fetch_bills_monitor" (Py.VStr "bills_monitor")
           [ ("verified_facts", Py.VList [ Py.VStr "The vote is on Tuesday" ]);
             ("sources_cited", Py.VInt 1) ]
           (Py.VBool true)).
  reflexivity.
Defined.

(** C9, as stated, fails: [approve_publication] turns down a publication
    that cites no source. *)
Lemma approve_publication_rejects_unsourced :
  Journalism.approve_publication
    [ ("verified_facts", Py.VList [ Py.VStr "The vote is on Tuesday" ]);
      ("sources_cited", Py.VInt 0) ] = Py.Ok (Py.VBool false)
  /\ Py.truthy (Py.VBool false) = false.
Proof. split; reflexivity. Qed.

(** The script as it runs: the story it finds cites no source and is held
    back, with nothing in the hash store. *)
Example pipeline_run_needs_review :
  match Journalism.run_journalism_pipeline Datetime.ticking_clock with
  | Py.Returns (Py.VDict publication) p =>
      Py.lookup "status" publication = Some (Py.VStr "NEEDS_HUMAN_REVIEW")
      /\ Journalism.hashes p = ∅
  | _ => False
  end.
Proof. vm_compute. split; reflexivity. Qed.

(** * More about the integrity ledger *)

Lemma string_length_app (s t : string) :
  String.length (s ++ t) = (String.length s + String.length t)%nat.
Proof. induction s as [|c s IH]; simpl; [reflexivity | now rewrite IH]. Qed.

Lemma sha256_blocks_length n h bs :
  length h = 8%nat -> length (Sha256.blocks n h bs) = 8%nat.
Proof.
  revert h bs. induction n as [|n IH]; intros h bs Hh; simpl; [exact Hh|].
  apply IH. reflexivity.
Qed.

(** X1. [compute_hash] returns 64 characters whatever the data: eight words
    of eight hexadecimal digits. *)
Theorem compute_hash_has_64_characters (data : string) :
  String.length (SHA256Verifier.compute_hash data) = 64%nat.
Proof.
  unfold SHA256Verifier.compute_hash, Sha256.hexdigest, Sha256.digest.
  pose proof (sha256_blocks_length
                (length (Sha256.pad (Sha256.bytes_of_string data)) / 64)
                Sha256.H0 (Sha256.pad (Sha256.bytes_of_string data)) eq_refl) as Hlen.
  destruct (Sha256.blocks _ Sha256.H0 _) as [|w0 [|w1 [|w2 [|w3 [|w4 [|w5 [|w6 [|w7 [|w8 l]]]]]]]]];
    try discriminate Hlen.
  cbn [fold_right]. rewrite !string_length_app. reflexivity.
Qed.

Section LedgerCalls.
Context {K : Type} `{Countable K}.
Implicit Types (hashes : gmap K string) (key : K) (data h : string).
Implicit Types (calls : list (K * string)).

Import SHA256Verifier.

Lemma verify_keeps_entries hashes key data k h :
  hashes !! k = Some h -> snd (verify key data hashes) !! k = Some h.
Proof.
  intros Hk. destruct (hashes !! key) as [h0|] eqn:Hkey.
  - now rewrite (verify_present _ _ _ h0 Hkey).
  - rewrite (verify_absent _ _ _ Hkey). simpl.
    rewrite lookup_insert_ne; [exact Hk | congruence].
Qed.

Lemma verify_other_key hashes key data k :
  k <> key -> snd (verify key data hashes) !! k = hashes !! k.
Proof.
  intros Hne. destruct (hashes !! key) as [h0|] eqn:Hkey.
  - now rewrite (verify_present _ _ _ h0 Hkey).
  - rewrite (verify_absent _ _ _ Hkey). simpl.
    now rewrite lookup_insert_ne by congruence.
Qed.

Lemma verify_each_parliament calls hashes :
  verify_each verify_parliament calls hashes = verify_each verify calls hashes.
Proof.
  revert hashes. induction calls as [|[k d] calls IH]; intros hashes; simpl;
    [reflexivity|].
  now rewrite verify_parliament_verify, IH.
Qed.

(** X2. The ledger is write-once: a hash that is on record for a key
    is still the hash on record for it after any sequence of [verify] calls,
    whatever keys and contents they present. *)
Theorem recorded_hash_is_never_replaced calls hashes k h :
  hashes !! k = Some h ->
  verify_each verify calls hashes !! k = Some h
  /\ verify_each verify_parliament calls hashes !! k = Some h.
Proof.
  intros Hk. rewrite verify_each_parliament. split; [|idtac];
    (revert hashes Hk; induction calls as [|[k0 d0] calls IH]; intros hashes Hk;
     simpl; [exact Hk | apply IH, verify_keeps_entries, Hk]).
Qed.

(** X3. [verify] touches no key but its own: a key that no call of a
    sequence presents has the entry it had, or none, afterwards. *)
Theorem unpresented_key_is_untouched calls hashes k :
  ~ In k (map fst calls) ->
  verify_each verify calls hashes !! k = hashes !! k
  /\ verify_each verify_parliament calls hashes !! k = hashes !! k.
Proof.
  intros Hk. rewrite verify_each_parliament. split; [|idtac];
    (revert hashes; induction calls as [|[k0 d0] calls IH]; intros hashes;
     simpl; [reflexivity|];
     rewrite IH by (intros Hin; apply Hk; now right);
     apply verify_other_key; intros ->; apply Hk; now left).
Qed.

(** X4. [verify] returns [True] exactly when, after the call, the hash on
    record for the key is the hash of the data presented. *)
Theorem verify_true_iff_recorded_afterwards hashes key data :
  (fst (verify key data hashes) = true
     <-> snd (verify key data hashes) !! key = Some (compute_hash data))
  /\ (fst (verify_parliament key data hashes) = true
     <-> snd (verify_parliament key data hashes) !! key = Some (compute_hash data)).
Proof.
  rewrite verify_parliament_verify.
  assert (Hv : fst (verify key data hashes) = true
     <-> snd (verify key data hashes) !! key = Some (compute_hash data)).
  { destruct (hashes !! key) as [h0|] eqn:Hkey.
    - rewrite (verify_present _ _ _ h0 Hkey). simpl. rewrite Hkey.
      rewrite bool_decide_eq_true. split; congruence.
    - rewrite (verify_absent _ _ _ Hkey). simpl.
      rewrite lookup_insert_eq. now split. }
  now split.
Qed.

(** X5. The body of [verify] in octopus_parliament_only.py and the body in
    journalism_pipeline.py compute the same function, and with either body
    verifying twice is verifying once: the second of two identical calls
    returns what the first returned and leaves the store as the first left
    it. *)
Theorem verify_bodies_agree_and_are_idempotent hashes key data :
  verify_parliament key data hashes = verify key data hashes
  /\ verify key data (snd (verify key data hashes)) = verify key data hashes
  /\ verify_parliament key data (snd (verify_parliament key data hashes))
     = verify_parliament key data hashes.
Proof.
  split; [apply verify_parliament_verify|].
  split; [apply verify_idempotent | apply verify_parliament_idempotent].
Qed.

End LedgerCalls.

Lemma recorded_hash_is_never_replaced_witness :
  let ledger : gmap string string :=
    {[ "story-1" := SHA256Verifier.compute_hash "abc" ]} in
  let calls := [ ("story-1", "tampered"); ("story-2", "abc"); ("story-1", "abd") ] in
  SHA256Verifier.verify_each SHA256Verifier.verify calls ledger !! "story-1"
    = Some (SHA256Verifier.compute_hash "abc")
  /\ SHA256Verifier.verify_each SHA256Verifier.verify_parliament calls ledger !! "story-1"
     = Some (SHA256Verifier.compute_hash "abc").
Proof.
  intros ledger calls.
  apply (recorded_hash_is_never_replaced calls ledger "story-1").
  apply lookup_singleton_eq.
Defined.

Lemma unpresented_key_is_untouched_witness :
  let ledger : gmap string string :=
    {[ "story-1" := SHA256Verifier.compute_hash "abc" ]} in
  let calls := [ ("story-2", "tampered"); ("story-3", "abc") ] in
  SHA256Verifier.verify_each SHA256Verifier.verify calls ledger !! "story-1"
    = ledger !! "story-1"
  /\ SHA256Verifier.verify_each SHA256Verifier.verify_parliament calls ledger !! "story-1"
     = ledger !! "story-1".
Proof.
  intros ledger calls.
  apply (unpresented_key_is_untouched calls ledger "story-1").
  simpl. intros [Heq|[Heq|[]]]; discriminate Heq.
Defined.

(** * More about methods: returning without an exception *)

Section ReturnsWith.
Import Py.
Context {S : Type}.

Lemma bind_returns {A B : Type} (m : M S A) (f : A -> M S B) s a s' :
  m s = Returns a s' -> bind m f s = f a s'.
Proof. intros Hm. unfold bind. now rewrite Hm. Qed.


Lemma returns_with_ret {A : Type} (P : S -> Prop) (a : A) :
  returns_with P (ret a) (fun r s' => r = a /\ P s').
Proof. intros s Hs. exists a, s. now repeat split. Qed.

Lemma returns_with_gets {A : Type} (P : S -> Prop) (f : S -> A) :
  returns_with P (gets f) (fun r s' => r = f s' /\ P s').
Proof. intros s Hs. exists (f s), s. now repeat split. Qed.

Lemma returns_with_bind {A B : Type} (P : S -> Prop) (Q : A -> S -> Prop)
    (R : B -> S -> Prop) (m : M S A) (f : A -> M S B) :
  returns_with P m Q ->
  (forall a, returns_with (Q a) (f a) R) ->
  returns_with P (bind m f) R.
Proof.
  intros Hm Hf s Hs. destruct (Hm s Hs) as (a & s1 & Em & Hq).
  destruct (Hf a s1 Hq) as (b & s2 & Ef & Hr).
  exists b, s2. split; [|exact Hr]. now rewrite (bind_returns _ _ _ _ _ Em).
Qed.

Lemma returns_with_weaken {A : Type} (P P' : S -> Prop) (Q Q' : A -> S -> Prop)
    (m : M S A) :
  returns_with P m Q ->
  (forall s, P' s -> P s) -> (forall a s, Q a s -> Q' a s) ->
  returns_with P' m Q'.
Proof.
  intros Hm HP HQ s Hs. destruct (Hm s (HP s Hs)) as (a & s' & Em & Hq).
  exists a, s'. split; [exact Em | now apply HQ].
Qed.

(** A loop whose body returns and keeps the invariant [I] of the locals and
    the state returns and keeps it. *)
Lemma returns_with_for_loop {A B C : Type} (I : B -> S -> Prop) (J : C -> S -> Prop)
    (l : list A) (body : A -> B -> M S (B + C)) :
  (forall x acc, In x l ->
     returns_with (I acc) (body x acc)
       (fun r s' => match r with inl acc' => I acc' s' | inr v => J v s' end)) ->
  forall acc,
    returns_with (I acc) (for_loop l acc body)
      (fun r s' => match r with inl acc' => I acc' s' | inr v => J v s' end).
Proof.
  induction l as [|x l IH]; intros Hbody acc s Hs; simpl.
  - exists (inl acc), s. now split.
  - destruct (Hbody x acc (or_introl eq_refl) s Hs) as (r & s1 & Eb & Hr).
    rewrite (bind_returns _ _ _ _ _ Eb). destruct r as [acc'|v].
    + apply IH; [|exact Hr]. intros y acc0 Hy. apply Hbody. now right.
    + exists (inr v), s1. now split.
Qed.
End ReturnsWith.

Section AlistMore.
Import Py.
Context {V : Type}.
Implicit Types (d : list (string * V)) (k : string) (v : V).

Lemma keys_store_present d k v v0 :
  lookup k d = Some v0 -> keys (store k v d) = keys d.
Proof.
  unfold keys. induction d as [|[k' v'] d IH]; simpl; [discriminate|].
  destruct (String.eqb k k'); simpl; [reflexivity|].
  intros Hk. now rewrite IH.
Qed.

Lemma lookup_of_key d k : In k (keys d) -> exists v, lookup k d = Some v.
Proof.
  unfold keys. induction d as [|[k' v'] d IH]; simpl; [intros []|].
  intros [->|Hin].
  - rewrite String.eqb_refl. now exists v'.
  - destruct (String.eqb k k'); [now exists v' | now apply IH].
Qed.

Lemma key_of_lookup d k v : lookup k d = Some v -> In k (keys d).
Proof.
  unfold keys. induction d as [|[k' v'] d IH]; simpl; [discriminate|].
  destruct (String.eqb_spec k k') as [->|Hne]; [now left|].
  intros Hk. right. now apply IH.
Qed.

Lemma keys_map_values {W : Type} (f : V -> W) d :
  keys (map (fun kv => (fst kv, f (snd kv))) d) = keys d.
Proof. unfold keys. rewrite map_map. reflexivity. Qed.

(** Overwriting an entry by a value with the property of the values keeps
    the property of all values. *)
Lemma Forall_store (P : V -> Prop) d k v :
  Forall (fun kv => P (snd kv)) d -> P v ->
  Forall (fun kv => P (snd kv)) (store k v d).
Proof.
  intros Hd Hv. induction Hd as [|[k' v'] d Hkv Hd IH]; simpl.
  - constructor; [exact Hv | constructor].
  - destruct (String.eqb k k'); constructor; assumption.
Qed.

Lemma Forall_lookup_value (P : V -> Prop) d k v :
  Forall (fun kv => P (snd kv)) d -> lookup k d = Some v -> P v.
Proof.
  intros Hd. induction Hd as [|[k' v'] d Hkv Hd IH]; simpl; [discriminate|].
  destruct (String.eqb k k'); [|exact IH].
  intros [= <-]. exact Hkv.
Qed.
End AlistMore.

(** * What the Parliament brain keeps *)

(** Unfolds the statements of a method of the brain, not the values they
    handle. *)
Ltac brain_steps :=
  cbv beta iota zeta delta
    [ Parliament.process_arm Parliament.fetch_and_verify
      Parliament.fetch_parliament_data Parliament.triple_verify
      Parliament.count_error Parliament.drift_check Parliament.freeze
      Parliament.now Py.bind Py.gets Py.modify Py.ret Py.lift Py.getitem
      Parliament.with_hashes Parliament.with_arms Parliament.with_frozen
      Parliament.with_last_drift Py.state_of Py.value_of
      Parliament.hashes Parliament.frozen Parliament.last_drift
      Parliament.arms Parliament.ticks ].

Section ParliamentInvariants.
Import Py Datetime Parliament.
Variable clk : clock.
Implicit Types (b : brain) (arm_name : string).

#[local] Instance well_kept_preorder : PreOrder well_kept.
Proof.
  split.
  - intros b. split; [reflexivity|]. split; [|tauto].
    intros arm_name a Ha. exists a. split; [assumption | lia].
  - intros b1 b2 b3 (Hk12 & He12 & Hf12) (Hk23 & He23 & Hf23).
    split; [congruence|]. split; [|tauto].
    intros arm_name a Ha.
    destruct (He12 _ _ Ha) as (a2 & Ha2 & Hle2).
    destruct (He23 _ _ Ha2) as (a3 & Ha3 & Hle3).
    exists a3. split; [assumption | lia].
Qed.

Lemma well_kept_same b b' :
  arms b' = arms b -> frozen b' = frozen b -> well_kept b b'.
Proof.
  intros Harms Hfz. split; [now rewrite Harms|]. split.
  - intros arm_name a Ha. exists a. rewrite Harms. split; [assumption | lia].
  - unfold flag_matches_arms. now rewrite Harms, Hfz.
Qed.

Lemma frozen_arms_match h ld l t :
  flag_matches_arms (Brain h true ld (freeze_arms l) t).
Proof.
  unfold flag_matches_arms, freeze_arms. cbn [arms frozen].
  apply Forall_map. apply Forall_forall. intros kv _. reflexivity.
Qed.

Lemma freeze_well_kept reason : keeps well_kept (freeze reason).
Proof.
  intros b. destruct b as [h fz ld ar tk]. brain_steps.
  split; [apply (keys_map_values (fun x => Arm "frozen" (errors x)))|]. split.
  - intros arm_name a Ha. cbn [arms] in *. unfold freeze_arms.
    rewrite (lookup_map_values (fun x => Arm "frozen" (errors x))), Ha.
    eexists. split; [reflexivity | simpl; lia].
  - intros _. apply frozen_arms_match.
Qed.

Lemma process_arm_well_kept arm_name : keeps well_kept (process_arm clk arm_name).
Proof.
  intros b. destruct (process_arm_cases clk arm_name b) as (data & ok & h & _ & ->).
  destruct ok; [now apply well_kept_same|].
  destruct (lookup arm_name (arms b)) as [a|] eqn:Ha; [|now apply well_kept_same].
  cbn [state_of].
  assert (Hstore : forall k x, lookup k (arms b) = Some x ->
            exists x', lookup k (store arm_name (Arm (status a) (errors a + 1)) (arms b))
                       = Some x' /\ errors x <= errors x').
  { intros k x Hk. destruct (String.eqb_spec arm_name k) as [->|Hne].
    - rewrite lookup_store_eq. eexists. split; [reflexivity|].
      simpl. assert (x = a) by congruence. subst x. lia.
    - rewrite lookup_store_ne by assumption. exists x. split; [assumption | lia]. }
  destruct (3 <=? errors a + 1); split; cbn [arms frozen].
  - unfold freeze_arms.
    rewrite (keys_map_values (fun x => Arm "frozen" (errors x))).
    eapply keys_store_present, Ha.
  - split; [|intros _; apply frozen_arms_match].
    intros k x Hk. destruct (Hstore _ _ Hk) as (x' & Hx' & Hle).
    unfold freeze_arms.
    rewrite (lookup_map_values (fun x => Arm "frozen" (errors x))), Hx'.
    eexists. split; [reflexivity | simpl; lia].
  - eapply keys_store_present, Ha.
  - split; [exact Hstore|].
    unfold flag_matches_arms. cbn [arms frozen]. intros Hflag.
    apply (Forall_store (fun x => status x = if frozen b then "frozen" else "ready"));
      [exact Hflag|].
    cbn [status].
    exact (Forall_lookup_value
             (fun x => status x = if frozen b then "frozen" else "ready")
             _ _ _ Hflag Ha).
Qed.

#[local] Hint Resolve freeze_well_kept process_arm_well_kept : keeps.

Ltac arms_untouched := intros ?; apply well_kept_same; reflexivity.

Lemma drift_check_well_kept : keeps well_kept (drift_check clk).
Proof. unfold drift_check. keeps_steps; arms_untouched. Qed.

Lemma triple_verify_well_kept data : keeps well_kept (triple_verify clk data).
Proof. unfold triple_verify. keeps_steps; arms_untouched. Qed.

Lemma fetch_well_kept arm_name : keeps well_kept (fetch_parliament_data clk arm_name).
Proof. unfold fetch_parliament_data. keeps_steps; arms_untouched. Qed.

Lemma gather_well_kept : keeps well_kept (gather_intelligence clk).
Proof. unfold gather_intelligence. keeps_steps; arms_untouched. Qed.

#[local] Hint Resolve drift_check_well_kept gather_well_kept : keeps.

Lemma run_loop_well_kept fuel : keeps well_kept (run_loop clk fuel).
Proof. induction fuel as [|fuel IH]; simpl; keeps_steps; arms_untouched. Qed.

Lemma step_well_kept b o : well_kept b (step clk b o).
Proof.
  destruct o; cbn [step].
  - exact (drift_check_well_kept b).
  - exact (triple_verify_well_kept data b).
  - exact (fetch_well_kept arm_name b).
  - exact (process_arm_well_kept arm_name b).
  - exact (gather_well_kept b).
  - exact (run_loop_well_kept 100 b).
  - exact (freeze_well_kept reason b).
Qed.

Lemma trace_well_kept ops b : well_kept b (trace clk ops b).
Proof.
  revert b. induction ops as [|o ops IH]; intros b; simpl.
  - reflexivity.
  - transitivity (step clk b o); [apply step_well_kept | apply IH].
Qed.

(** X6. No operation of the brain adds, drops or reorders an arm, and none
    lowers an error count: after any sequence of operations the arms have
    the names they had, and every arm an error count at least as high. *)
Theorem arms_and_error_counts_are_kept ops b arm_name a :
  lookup arm_name (arms b) = Some a ->
  keys (arms (trace clk ops b)) = keys (arms b)
  /\ exists a', lookup arm_name (arms (trace clk ops b)) = Some a'
                /\ errors a <= errors a'.
Proof.
  intros Ha. destruct (trace_well_kept ops b) as (Hkeys & Herr & _).
  split; [exact Hkeys | now apply Herr].
Qed.

(** X7. The flag and the arms agree in every state the brain reaches: after
    any sequence of operations from a state in which every arm is ['ready']
    and the flag is down, either the flag is down and every arm is
    ['ready'], or the flag is up and every arm is ['frozen']. *)
Theorem flag_and_arm_statuses_agree ops b :
  flag_matches_arms b -> flag_matches_arms (trace clk ops b).
Proof. intros Hb. now apply (trace_well_kept ops b). Qed.

(** X8. The drift check of a brain with eight arms is inert: after any
    sequence of operations it returns [True] and leaves the flag as it was.
    The eight-arms check is the only one of its five that can fail, and no
    operation changes the number of arms. *)
Theorem drift_check_of_eight_arms_never_freezes ops b :
  length (arms b) = 8%nat ->
  value_of (drift_check clk (trace clk ops b)) = Some true
  /\ frozen (state_of (drift_check clk (trace clk ops b)))
     = frozen (trace clk ops b).
Proof.
  intros Hlen.
  assert (Hlen' : (Z.of_nat (length (arms (trace clk ops b))) =? 8) = true).
  { destruct (trace_well_kept ops b) as (Hkeys & _ & _).
    apply (f_equal (@length string)) in Hkeys. unfold keys in Hkeys.
    rewrite !length_map in Hkeys. rewrite Hkeys, Hlen. reflexivity. }
  destruct (trace clk ops b) as [h fz ld ar tk]. revert Hlen'. brain_steps.
  intros Hlen'. destruct (elapsed_more_than 30 (clk tk) ld); [|now split].
  unfold check_parliament_focus. cbn [forallb id andb].
  rewrite Hlen'. now split.
Qed.

End ParliamentInvariants.

(** * Exceptions in the Parliament brain *)

Lemma prefix_of_app (s t : string) : String.prefix s (s ++ t) = true.
Proof.
  induction s as [|c s IH]; simpl; [now destruct t|].
  destruct (ascii_dec c c); [exact IH | contradiction].
Qed.

Lemma str_contains_of_prefix (needle s : string) :
  String.prefix needle s = true -> Py.str_contains needle s = true.
Proof. intros Hp. destruct s; cbn [Py.str_contains]; now rewrite Hp. Qed.

Lemma str_contains_cons (needle : string) (c : ascii) (s : string) :
  Py.str_contains needle s = true -> Py.str_contains needle (String c s) = true.
Proof.
  intros Hs. cbn [Py.str_contains].
  destruct (String.prefix needle (String c s)); [reflexivity | exact Hs].
Qed.

Section ParliamentExceptions.
Import Py Datetime Parliament.
Variable clk : clock.
Implicit Types (b : brain) (arm_name : string).

Lemma process_arm_of_an_arm_returns arm_name b :
  In arm_name (keys (arms b)) ->
  exists r b', process_arm clk arm_name b = Returns r b'
               /\ keys (arms b') = keys (arms b).
Proof.
  intros Hin. destruct (lookup_of_key _ _ Hin) as (a & Ha).
  pose proof (process_arm_well_kept clk arm_name b) as (Hkeys & _).
  destruct (process_arm_cases clk arm_name b) as (data & ok & h & _ & Hpa).
  rewrite Hpa in Hkeys |- *. rewrite Ha in Hkeys |- *.
  destruct ok; eexists _, _; (split; [reflexivity | exact Hkeys]).
Qed.

Lemma drift_check_returns b : exists r b', drift_check clk b = Returns r b'.
Proof.
  destruct b as [h fz ld ar tk]. brain_steps.
  destruct (elapsed_more_than 30 (clk tk) ld); [|now eexists _, _].
  match goal with
  | |- context [negb (forallb id ?l)] => destruct (negb (forallb id l))
  end; now eexists _, _.
Qed.

Lemma gather_returns b : exists r b', gather_intelligence clk b = Returns r b'.
Proof.
  unfold gather_intelligence.
  unfold bind at 1. cbn [gets]. destruct (frozen b); [now eexists _, _|].
  unfold bind at 1. cbn [gets].
  set (I := fun (_ : dict) s => keys (arms s) = keys (arms b)).
  match goal with
  | |- context [for_loop ?names ?acc ?body] =>
      assert (Hbody : forall x acc0, In x names ->
                returns_with (I acc0) (body x acc0)
                  (fun r s' => match r with
                               | inl acc' => I acc' s'
                               | inr _ => True
                               end));
      [|destruct (returns_with_for_loop I (fun _ _ => True) names body Hbody
                    acc b eq_refl) as (r & s' & Eloop & _)]
  end.
  - intros x acc Hx s Hs. unfold I in *. unfold bind, gets, ret.
    destruct (String.eqb _ "ready"); [|now eexists _, _].
    destruct (process_arm_of_an_arm_returns x s) as (r & s1 & Epa & Hkeys);
      [now rewrite Hs|].
    rewrite Epa. destruct (truthy (VDict r)); eexists _, _;
      (split; [reflexivity | congruence]).
  - unfold bind at 1. rewrite Eloop.
    destruct r as [intelligence|[]]. now eexists _, _.
Qed.

Lemma run_loop_returns fuel b : exists b', run_loop clk fuel b = Returns tt b'.
Proof.
  revert b. induction fuel as [|fuel IH]; intros b; simpl; [now eexists|].
  unfold bind at 1. cbn [gets]. destruct (frozen b); [now eexists|].
  unfold bind at 1. cbn [now].
  set (b1 := Brain _ _ _ _ _).
  destruct (drift_check_returns b1) as (aligned & b2 & Ed).
  unfold bind at 1. rewrite Ed. destruct aligned; cbn [negb]; [|now eexists].
  destruct (gather_returns b2) as (intelligence & b3 & Eg).
  unfold bind at 1. rewrite Eg.
  destruct (has_key "status" intelligence && _); [now eexists | apply IH].
Qed.

(** X9. Gathering and the main loop never raise, whatever the state and the
    clock, so the exception handler of [main] is never taken: the brain
    [main] leaves is the one [run] leaves. *)
Theorem gather_and_run_never_raise b :
  (exists r b', gather_intelligence clk b = Returns r b')
  /\ (exists b', run clk b = Returns tt b')
  /\ main clk = state_of (run clk (init clk)).
Proof.
  split; [apply gather_returns|]. split; [apply run_loop_returns|].
  unfold main. destruct (run_loop_returns 100 (init clk)) as (b' & Erun).
  unfold run. now rewrite Erun.
Qed.

(** X10. [process_arm] raises exactly when it is called for a name that is
    not in [self.arms] and the verification fails; the exception is the
    [KeyError] of that name, from [self.arms[arm_name]]. *)
Theorem process_arm_raises_only_for_an_unknown_arm arm_name b :
  ((exists e b', process_arm clk arm_name b = Raises e b')
   <-> lookup arm_name (arms b) = None
       /\ exists data, value_of (fetch_and_verify clk arm_name b) = Some (data, false))
  /\ (forall e b', process_arm clk arm_name b = Raises e b' -> e = KeyError arm_name).
Proof.
  destruct (process_arm_cases clk arm_name b) as (data & ok & h & Hfv & Hpa).
  rewrite Hfv, Hpa. cbn [value_of]. destruct ok.
  - split; [split|]; [intros (e & b' & E); discriminate E | | discriminate].
    intros (_ & d & E). discriminate E.
  - destruct (lookup arm_name (arms b)) as [a|].
    + split; [split|]; [intros (e & b' & E); discriminate E | | discriminate].
      intros (E & _). discriminate E.
    + split; [split|].
      * intros _. split; [reflexivity | now exists data].
      * intros _. now eexists _, _.
      * intros e b' [= <- _]. reflexivity.
Qed.

(** X11. For the data that [fetch_parliament_data] builds, [triple_verify]
    returns what the hash check returns: the source, structure and pattern
    checks cannot fail, for a known arm or an unknown one. *)
Theorem fetched_data_passes_all_but_the_hash_check arm_name b data b1 :
  fetch_parliament_data clk arm_name b = Returns data b1 ->
  exists text,
    json_dumps true (VDict data) = Ok text
    /\ value_of (triple_verify clk data b1)
       = Some (fst (SHA256Verifier.verify_parliament
                      (arm_name ++ "_" ++ str_of_int (hour (clk (ticks b1))))
                      text (hashes b1))).
Proof.
  destruct b as [h fz ld ar tk]. brain_steps. intros [= <- <-].
  eexists. split; [cbn [json_dumps rbind]; reflexivity|].
  brain_steps. cbn [json_dumps rbind]. brain_steps.
  cbn [get lookup String.eqb Ascii.eqb Bool.eqb py_str].
  match goal with
  | |- context [SHA256Verifier.verify_parliament ?k ?d ?h] =>
      destruct (SHA256Verifier.verify_parliament k d h) as [sha_ok h']
  end.
  assert (Hsource :
    has_key "source"
      [ ("type", VStr arm_name);
        ("source", VStr ("api.parliament.uk" ++ get mock_endpoints arm_name "/unknown"));
        ("timestamp", VStr (isoformat (clk tk)));
        ("data", VStr ("Mock Parliament data from " ++ arm_name)) ]
    && str_contains "parliament.uk"
         ("api.parliament.uk" ++ get mock_endpoints arm_name "/unknown") = true).
  { apply andb_true_intro. split; [reflexivity|].
    change ("api.parliament.uk" ++ get mock_endpoints arm_name "/unknown")
      with (String "a" (String "p" (String "i" (String "."
              ("parliament.uk" ++ get mock_endpoints arm_name "/unknown"))))).
    do 4 apply str_contains_cons.
    apply str_contains_of_prefix, prefix_of_app. }
  rewrite Hsource. unfold check_expected_pattern.
  cbn [forallb id andb length Z.of_nat Z.ltb Z.compare fst Pos.of_succ_nat Pos.succ].
  destruct sha_ok; reflexivity.
Qed.


(** X13. A drift check made no more than thirty minutes after the last one
    checks nothing: it returns [True] and changes nothing but the count of
    clock readings. *)
Theorem drift_check_within_thirty_minutes_checks_nothing b :
  micros (clk (ticks b)) - micros (last_drift b) <= 30 * 60 * 1000000 ->
  drift_check clk b
  = Returns true (Brain (hashes b) (frozen b) (last_drift b) (arms b) (S (ticks b))).
Proof.
  intros Hle. destruct b as [h fz ld ar tk]. cbn [ticks last_drift] in Hle.
  brain_steps.
  assert (Hno : elapsed_more_than 30 (clk tk) ld = false)
    by (unfold elapsed_more_than; apply Z.ltb_ge; lia).
  now rewrite Hno.
Qed.

End ParliamentExceptions.

(** * The loop of the Westminster watch *)

(** Unfolds the statements of a method of the watch, not the values they
    handle. *)
Ltac watch_steps :=
  cbv beta iota zeta delta
    [ We333.we333_drift_check We333.we333_triple_check We333.we_freeze
      We333.collect_from_arm We333.update_arm We333.arm_field We333.now
      Py.bind Py.gets Py.modify Py.ret Py.lift
      We333.with_arms We333.with_frozen We333.with_last_drift_check
      Py.state_of Py.value_of
      We333.arms We333.frozen We333.last_drift_check We333.we333_mode
      We333.ticks ].

Section WatchLoop.
Import Py Datetime We333.
Variable clk : clock.
Implicit Types (w : watch) (arm_name : string).

Lemma drift_check_of_running_watch ks n w :
  length ks = 8%nat -> running ks n w ->
  exists w', we333_drift_check clk w = Returns true w' /\ running ks (S n) w'.
Proof.
  intros Hks (Hfz & Hkeys & Hn). unfold running.
  assert (Hlen : (Z.of_nat (length (arms w)) =? 8) = true).
  { pose proof (f_equal (@length string) Hkeys) as Hl. unfold keys in Hl.
    rewrite length_map in Hl. rewrite Hl, Hks. reflexivity. }
  destruct w as [ar fz ld md tk]. cbn [ticks frozen arms] in *. watch_steps.
  destruct (elapsed_more_than 30 (clk tk) ld).
  - unfold check_uk_focus, check_simplicity, check_truth_priority,
      check_zero_manipulation. cbn [forallb id andb]. rewrite Hlen. cbn [negb andb].
    eexists. split; [reflexivity|]. repeat split; cbn [frozen arms ticks]; auto; lia.
  - eexists. split; [reflexivity|]. repeat split; cbn [frozen arms ticks]; auto; lia.
Qed.

Lemma gather_of_running_watch ks n w :
  running ks n w ->
  exists our_intelligence w',
    collaborative_gather clk w = Returns our_intelligence w'
    /\ running ks n w'
    /\ Forall (fun kv => merged (snd kv)) our_intelligence.
Proof.
  intros (Hfz & Hkeys & Hn). unfold collaborative_gather.
  unfold bind at 1. cbn [gets]. rewrite Hfz.
  unfold bind at 1. cbn [gets].
  set (I := fun (acc : dict) s =>
              running ks n s /\ Forall (fun kv => merged (snd kv)) acc).
  match goal with
  | |- context [for_loop ?names ?acc ?body] =>
      assert (Hbody : forall x acc0, In x names ->
                returns_with (I acc0) (body x acc0)
                  (fun r s' => match r with
                               | inl acc' => I acc' s'
                               | inr _ => False
                               end));
      [|destruct (returns_with_for_loop I (fun _ _ => False) names body Hbody
                    acc w) as (r & w' & Eloop & Hr)]
  end.
  - subst I. cbv beta. intros x acc _ s ((Hs & Hk & Hn') & Hacc).
    destruct s as [ar fz ld md tk]. cbn [frozen arms ticks] in *. subst fz.
    watch_steps. destruct (String.eqb _ "ready").
    + unfold verify_primary_source, verify_secondary_source,
        verify_pattern_match, await_human_verification. cbn [andb negb].
      eexists _, _. split; [reflexivity|]. split.
      * destruct (lookup x ar) as [a|] eqn:Ha;
          repeat split; cbn [frozen arms ticks]; try lia; [|exact Hk].
        rewrite (keys_store_present _ _ _ _ Ha). exact Hk.
      * apply (Forall_store merged); [exact Hacc|]. now eexists _, _.
    + eexists _, _. split; [reflexivity|]. split; [|exact Hacc].
      now repeat split.
  - subst I. cbv beta. split; [now repeat split | constructor].
  - unfold bind at 1. rewrite Eloop. destruct r as [our_intelligence|v];
      [|destruct Hr].
    destruct Hr as (Hrun & Hall). now eexists _, _.
Qed.

Lemma fixing_not_in_merged v : merged v -> contains "fixing" v = Ok false.
Proof. intros (ai & human & ->). reflexivity. Qed.

(** X14. The loop of the watch does not stop by itself: from a state with
    the flag down and eight arms, every one of any number of iterations is
    carried out, without an exception, and the flag is still down. Each
    iteration reads the clock at least twice. *)
Theorem watch_loop_never_stops fuel w :
  frozen w = false ->
  length (arms w) = 8%nat ->
  exists w',
    run_loop clk fuel w = Returns tt w'
    /\ frozen w' = false
    /\ (ticks w + 2 * fuel <= ticks w')%nat.
Proof.
  intros Hfz Hlen.
  assert (Hgen : forall fuel ks n w, length ks = 8%nat -> running ks n w ->
            exists w', run_loop clk fuel w = Returns tt w'
                       /\ running ks (n + 2 * fuel) w').
  { clear. intros fuel. induction fuel as [|fuel IH]; intros ks n w Hks Hw.
    - exists w. split; [reflexivity|]. now rewrite Nat.add_0_r.
    - cbn [run_loop]. destruct Hw as (Hfz & Hkeys & Hn).
      unfold bind at 1. cbn [gets]. rewrite Hfz.
      unfold bind at 1. cbn [now].
      set (w1 := Watch _ _ _ _ _).
      assert (Hw1 : running ks (S n) w1)
        by (subst w1; repeat split; cbn [frozen arms ticks]; auto; lia).
      clearbody w1.
      destruct (drift_check_of_running_watch ks (S n) w1 Hks Hw1)
        as (w2 & Ed & Hw2).
      unfold bind at 1. rewrite Ed. cbn [negb].
      destruct (gather_of_running_watch ks (S (S n)) w2 Hw2)
        as (our_intelligence & w3 & Eg & Hw3 & Hall).
      unfold bind at 1. rewrite Eg.
      destruct (IH ks (S (S n)) w3 Hks Hw3) as (w' & Erun & Hw').
      assert (Hw'' : running ks (n + 2 * S fuel) w').
      { destruct Hw' as (? & ? & ?). repeat split; auto; lia. }
      destruct (lookup "status" our_intelligence) as [st|] eqn:Est.
      + rewrite (bind_returns _ _ _ _ _
                   (f_equal (fun r => lift r w3)
                      (fixing_not_in_merged st
                         (Forall_lookup_value merged _ _ _ Hall Est)))).
        now exists w'.
      + now exists w'. }
  destruct (Hgen fuel (keys (arms w)) (ticks w) w) as (w' & Erun & Hf & _ & Ht).
  - unfold keys. now rewrite length_map.
  - now repeat split.
  - now exists w'.
Qed.

End WatchLoop.

(** * More about the journalism pipeline *)

Lemma contains_raises_type_error needle v e :
  Py.contains needle v = Py.Err e -> e = Py.TypeError.
Proof. unfold Py.contains. destruct v; intros H; now inversion H. Qed.

Lemma gt_int_raises_type_error v n e :
  Py.gt_int v n = Py.Err e -> e = Py.TypeError.
Proof.
  unfold Py.gt_int, Py.as_number. destruct v; cbn [Py.rbind]; intros H; now inversion H.
Qed.

Section JournalismMore.
Import Py Datetime Journalism.
Variable clk : clock.
Implicit Types (p : pipeline) (story analysis publication : dict).

(** X16. [analyze_story] has a default for every key it reads: it returns
    an analysis of exactly seven keys, the headline being the story's or
    [None], or it raises [TypeError], which it does exactly when the
    ['source'] of the story is not a string, list or dictionary or its
    ['importance'] is not a number.  It never raises [KeyError]. *)
Theorem analyze_story_returns_seven_keys_or_type_error story p :
  match analyze_story clk story p with
  | Returns analysis p' =>
      keys analysis
      = [ "headline"; "source"; "timestamp"; "type"; "stakeholders"; "impact";
          "requires_verification" ]
      /\ lookup "headline" analysis = Some (get story "headline" VNone)
      /\ (lookup "type" analysis = Some (VStr "political")
          \/ lookup "type" analysis = Some (VStr "general"))
      /\ p' = Pipeline (hashes p) (S (ticks p))
  | Raises e p' =>
      e = TypeError
      /\ (contains "parliament" (get story "source" (VStr EmptyString)) = Err TypeError
          \/ gt_int (get story "importance" (VInt 0)) 7 = Err TypeError)
  end.
Proof.
  unfold analyze_story, classify_story, assess_impact, bind, now, lift, ret.
  destruct (contains "parliament" (get story "source" (VStr EmptyString)))
    as [political|e] eqn:Esource; cbn [rbind].
  - destruct (gt_int (get story "importance" (VInt 0)) 7) as [high|e] eqn:Eimp;
      cbn [rbind].
    + cbn [check_story_ethics negb]. repeat split.
      destruct political; [now left | now right].
    + apply gt_int_raises_type_error in Eimp. subst e. split; [reflexivity | now right].
  - apply contains_raises_type_error in Esource. subst e.
    split; [reflexivity | now left].
Qed.



End JournalismMore.

Section JournalismArms.
Import Py Datetime Journalism SHA256Verifier.
Variable clk : clock.
Implicit Types (p : pipeline) (analysis : dict) (source : pyval).
Implicit Types (calls : list (pykey * string)).






(** X21. [fact_check] never raises and reads no fact of the analysis: the
    one sample fact replaces whatever was under ['verified_facts'], the rate
    is 1.0, and every other key is as it was. *)
Theorem fact_check_replaces_the_facts_and_reports_full_rate analysis p :
  exists checked,
    fact_check analysis p = Returns checked p
    /\ lookup "verified_facts" checked
       = Some (VList [ VDict [ ("claim", VStr "Sample fact"); ("source", VStr "test") ] ])
    /\ lookup "verification_rate" checked = Some (VFloat 1)
    /\ forall k, k <> "verified_facts" -> k <> "verification_rate" ->
         lookup k checked = lookup k analysis.
Proof.
  eexists. split; [reflexivity|]. split; [|split].
  - rewrite lookup_store_ne by discriminate. apply lookup_store_eq.
  - apply lookup_store_eq.
  - intros k H1 H2. rewrite !lookup_store_ne by congruence. reflexivity.
Qed.

(** X22. [detect_bias] files every source as a centre source:
    [calculate_bias] is the constant 0.0, so the left and right lists stay
    empty whatever the sources are.  It raises [TypeError] only when
    ['sources'] cannot be iterated. *)
Theorem detect_bias_files_every_source_as_centre analysis p :
  detect_bias analysis p
  = match iterate (get analysis "sources" (VList [])) with
    | Ok items =>
        Returns
          (store "bias_analysis"
             (VDict [ ("left_sources", VList []);
                      ("center_sources", VList items);
                      ("right_sources", VList []);
                      ("bias_score", VInt 0) ])
             analysis) p
    | Err e => Raises e p
    end.
Proof.
  unfold detect_bias, bind, lift, ret.
  destruct (iterate (get analysis "sources" (VList []))) as [items|e]; [|reflexivity].
  match goal with
  | |- context [fold_left ?f items _] =>
      assert (Hfold : forall l c, fold_left f l ([], c, []) = ([], (c ++ l)%list, []))
  end.
  { induction l as [|x l IH]; intros c; cbn [fold_left].
    - now rewrite app_nil_r.
    - unfold calculate_bias. cbn [Qle_bool negb]. cbv iota beta.
      change (negb (Qle_bool (- (3 # 10)) 0)) with false.
      change (negb (Qle_bool 0 (3 # 10))) with false. cbv iota.
      rewrite IH, <- app_assoc. reflexivity. }
  rewrite Hfold. reflexivity.
Qed.

End JournalismArms.

Section JournalismPublication.
Import Py Datetime Journalism SHA256Verifier.
Variable clk : clock.
Implicit Types (p : pipeline) (story analysis publication : dict).






(** X18. Between the analyzer and the aggregator the type of a story is
    'political' or 'general', never a text with 'parliament' in it: the
    aggregator therefore never calls the Parliament API, also for a story
    whose source is Parliament. *)
Theorem aggregator_never_calls_the_parliament_api story p :
  match
    run_stages [ analyze_story clk; fact_check; verify_sources; aggregate_apis ]
      story p
  with
  | Returns analysis p' =>
      lookup "api_data" analysis
      = Some (VDict [ ("gov_uk", VDict [ ("statements", VList []) ]);
                      ("news", VDict [ ("articles", VList []) ]) ])
  | Raises e p' => e = TypeError
  end.
Proof.
  cbn [run_stages]. unfold bind at 1.
  unfold analyze_story, classify_story, assess_impact, bind at 1 2 3, now, lift, ret.
  destruct (contains "parliament" (get story "source" (VStr EmptyString)))
    as [political|e] eqn:Hsource; cbn [rbind];
    [|now apply contains_raises_type_error in Hsource].
  destruct (gt_int (get story "importance" (VInt 0)) 7) as [high|e] eqn:Himp;
    cbn [rbind]; [|now apply gt_int_raises_type_error in Himp].
  cbn [check_story_ethics negb].
  destruct political, high;
    lazy -[SHA256Verifier.compute_hash json_dumps isoformat py_str py_repr]; reflexivity.
Qed.

(** X25. The script as a whole: whatever the clock shows,
    [run_journalism_pipeline] takes the Parliament story, the most important
    of the three it hunts, through the seven arms and returns a publication
    that needs human review; it reads the clock twice and records no hash. *)
Theorem run_journalism_pipeline_needs_human_review :
  exists publication p',
    run_journalism_pipeline clk = Returns (VDict publication) p'
    /\ lookup "headline" publication = Some (VStr "New Climate Bill Debate")
    /\ lookup "status" publication = Some (VStr "NEEDS_HUMAN_REVIEW")
    /\ lookup "sources_cited" publication = Some (VInt 0)
    /\ hashes p' = ∅
    /\ ticks p' = 2%nat.
Proof.
  eexists. eexists. split.
  - lazy -[SHA256Verifier.compute_hash json_string isoformat]. reflexivity.
  - repeat split.
Qed.

End JournalismPublication.

Section WatchGather.
Import Py Datetime We333.
Variable clk : clock.
Implicit Types (w : watch) (arm_name : string).

Lemma has_key_store {V : Type} (d : list (string * V)) k k' v :
  has_key k' d = true \/ k' = k -> has_key k' (store k v d) = true.
Proof.
  unfold has_key. destruct (String.eqb_spec k k') as [->|Hne].
  - intros _. now rewrite lookup_store_eq.
  - rewrite (lookup_store_ne _ _ _ _ Hne). intros [Hk| ->]; [exact Hk | congruence].
Qed.

(** What a gathering of a watch that is not frozen returns and leaves. *)
Lemma gather_of_unfrozen_watch w :
  frozen w = false ->
  exists our_intelligence w',
    collaborative_gather clk w = Returns our_intelligence w'
    /\ no_failure w w'
    /\ reported our_intelligence w'
    /\ forall arm_name a,
         lookup arm_name (arms w) = Some a -> status a = "ready" ->
         has_key arm_name our_intelligence = true.
Proof.
  intros Hfz. unfold collaborative_gather.
  unfold bind at 1. cbn [gets]. rewrite Hfz.
  unfold bind at 1. cbn [gets].
  match goal with
  | |- context [for_loop ?names ?acc ?body] => remember body as turn eqn:Hturn
  end.
  assert (Hstep : forall x acc s, frozen s = false ->
            exists acc1 s1,
              turn x acc s = Returns (inl acc1) s1
              /\ no_failure s s1
              /\ (reported acc s -> reported acc1 s1)
              /\ (forall y, has_key y acc = true -> has_key y acc1 = true)
              /\ (forall a, lookup x (arms s) = Some a -> status a = "ready" ->
                    has_key x acc1 = true)).
  { intros x acc s Hs. subst turn.
    destruct s as [ar fz ld md tk]. cbn [frozen] in Hs. subst fz.
    watch_steps.
    unfold verify_primary_source, verify_secondary_source,
      verify_pattern_match, await_human_verification. cbn [andb negb].
    watch_steps.
    destruct (lookup x ar) as [a|] eqn:Ha.
    - destruct (String.eqb_spec (status a) "ready") as [Hready|Hother].
      + cbv beta iota. rewrite Ha.
        eexists _, _. split; [reflexivity|].
        split; [|split; [|split]].
        * split; [reflexivity|]. cbn [arms]. intros y b Hy.
          destruct (String.eqb_spec x y) as [<-|Hne].
          -- rewrite lookup_store_eq. eexists. split; [reflexivity|].
             cbn [status errors]. split; congruence.
          -- rewrite (lookup_store_ne _ _ _ _ Hne). exists b. now repeat split.
        * intros Hacc y data Hy. cbn [arms].
          destruct (String.eqb_spec x y) as [<-|Hne].
          -- rewrite lookup_store_eq in Hy. injection Hy as <-.
             split; [now eexists _, _|].
             rewrite lookup_store_eq. eexists. now repeat split.
          -- rewrite (lookup_store_ne _ _ _ _ Hne) in Hy.
             rewrite (lookup_store_ne _ _ _ _ Hne). exact (Hacc y data Hy).
        * intros y Hy. apply has_key_store. now left.
        * intros _ _ _. apply has_key_store. now right.
      + cbv beta iota.
        eexists _, _. split; [reflexivity|].
        split; [|split; [|split]].
        * split; [reflexivity|]. intros y b Hy. exists b. now repeat split.
        * auto.
        * auto.
        * cbn [arms]. intros b Hb. injection Hb as <-.
          intros Hst. contradiction.
    - cbn [String.eqb]. cbv beta iota. eexists _, _. split; [reflexivity|].
      split; [|split; [|split]].
      + split; [reflexivity|]. intros y b Hy. exists b. now repeat split.
      + auto.
      + auto.
      + cbn [arms]. intros b Hb. congruence. }
  clear Hturn.
  assert (Hloop : forall names acc s, frozen s = false ->
            exists r s',
              for_loop names acc turn s = Returns (inl r) s'
              /\ no_failure s s'
              /\ (reported acc s -> reported r s')
              /\ (forall y, has_key y acc = true -> has_key y r = true)
              /\ (forall y a, In y names -> lookup y (arms s) = Some a ->
                    status a = "ready" -> has_key y r = true)).
  { induction names as [|x names IH]; intros acc s Hs.
    - exists acc, s. split; [reflexivity|]. split; [|split; [|split]].
      + split; [reflexivity|]. intros y b Hy. exists b. now repeat split.
      + auto.
      + auto.
      + intros y a [].
    - destruct (Hstep x acc s Hs) as (acc1 & s1 & E1 & (Hf1 & Hn1) & Hr1 & Hk1 & Hx1).
      destruct (IH acc1 s1 (eq_trans Hf1 Hs))
        as (r & s' & E2 & (Hf2 & Hn2) & Hr2 & Hk2 & Hx2).
      exists r, s'. cbn [for_loop]. unfold bind at 1. rewrite E1.
      split; [exact E2|]. split; [|split; [|split]].
      + split; [congruence|]. intros y b Hy.
        destruct (Hn1 y b Hy) as (b1 & Hy1 & Hs1 & He1).
        destruct (Hn2 y b1 Hy1) as (b2 & Hy2 & Hs2 & He2).
        exists b2. repeat split; congruence.
      + auto.
      + auto.
      + intros y a [<-|Hin] Hy Hst.
        * apply Hk2. exact (Hx1 a Hy Hst).
        * destruct (Hn1 y a Hy) as (b1 & Hy1 & Hs1 & He1).
          apply (Hx2 y b1 Hin Hy1). congruence. }
  destruct (Hloop (keys (arms w)) [] w Hfz) as (r & w' & E & Hn & Hr & _ & Hx).
  exists r, w'. unfold bind at 1. rewrite E.
  split; [reflexivity|]. split; [exact Hn|]. split.
  - apply Hr. intros y data Hy. discriminate.
  - intros y a Hy Hst. apply (Hx y a); [|exact Hy|exact Hst].
    exact (key_of_lookup _ _ _ Hy).
Qed.

(** X15. A gathering of a watch that is not frozen reaches every arm that
    is ready: it returns, and each such arm is then marked as verified,
    holds the merged data as its last data, and is reported under its name
    with that same data.  No arm changes its status or its error count, and
    every entry of the report belongs to such an arm. *)
Theorem gather_reports_and_marks_every_ready_arm w :
  frozen w = false ->
  exists our_intelligence w',
    collaborative_gather clk w = Returns our_intelligence w'
    /\ no_failure w w'
    /\ reported our_intelligence w'
    /\ forall arm_name a,
         lookup arm_name (arms w) = Some a -> status a = "ready" ->
         has_key arm_name our_intelligence = true.
Proof.
  intros Hfz.
  destruct (gather_of_unfrozen_watch w Hfz)
    as (our_intelligence & w' & Egather & Hkept & Hreported & Hready).
  exists our_intelligence, w'. split; [exact Egather|].
  split; [exact Hkept|]. split; [exact Hreported | exact Hready].
Qed.

End WatchGather.

(** * The properties above at concrete states *)

Lemma arms_and_error_counts_are_kept_witness :
  let clk := Datetime.ticking_clock in
  let ops := [ Parliament.GatherIntelligence; Parliament.Freeze "audit";
               Parliament.ProcessArm "bills_monitor" ] in
  let b := Parliament.init clk in
  Py.keys (Parliament.arms (Parliament.trace clk ops b))
  = Py.keys (Parliament.arms b)
  /\ exists a',
       Py.lookup "bills_monitor" (Parliament.arms (Parliament.trace clk ops b))
       = Some a'
       /\ Parliament.errors (Parliament.Arm "ready" 0) <= Parliament.errors a'.
Proof.
  intros clk ops b.
  apply (arms_and_error_counts_are_kept clk ops b "bills_monitor"
           (Parliament.Arm "ready" 0)).
  reflexivity.
Defined.

Lemma flag_and_arm_statuses_agree_witness :
  let clk := Datetime.ticking_clock in
  Parliament.flag_matches_arms
    (Parliament.trace clk
       [ Parliament.GatherIntelligence; Parliament.Freeze "audit";
         Parliament.DriftCheck ]
       (Parliament.init clk)).
Proof.
  intros clk.
  apply (flag_and_arm_statuses_agree clk).
  unfold Parliament.flag_matches_arms. vm_compute. repeat constructor.
Defined.

Lemma drift_check_of_eight_arms_never_freezes_witness :
  let clk := Datetime.ticking_clock in
  let b := Parliament.trace clk [ Parliament.GatherIntelligence ] (Parliament.init clk) in
  Py.value_of (Parliament.drift_check clk b) = Some true
  /\ Parliament.frozen (Py.state_of (Parliament.drift_check clk b))
     = Parliament.frozen b.
Proof.
  intros clk b.
  apply (drift_check_of_eight_arms_never_freezes clk
           [ Parliament.GatherIntelligence ] (Parliament.init clk)).
  reflexivity.
Defined.

Lemma fetched_data_passes_all_but_the_hash_check_witness :
  let clk := Datetime.ticking_clock in
  let b := Parliament.init clk in
  let fetched := Parliament.fetch_parliament_data clk "lords_monitor" b in
  let data := match Py.value_of fetched with Some d => d | None => [] end in
  let b1 := Py.state_of fetched in
  exists text,
    Py.json_dumps true (Py.VDict data) = Py.Ok text
    /\ Py.value_of (Parliament.triple_verify clk data b1)
       = Some (fst (SHA256Verifier.verify_parliament
                      ("lords_monitor" ++ "_"
                         ++ Py.str_of_int (Datetime.hour (clk (Parliament.ticks b1))))
                      text (Parliament.hashes b1))).
Proof.
  intros clk b fetched data b1.
  apply (fetched_data_passes_all_but_the_hash_check clk "lords_monitor" b data b1).
  vm_compute. reflexivity.
Defined.


Lemma drift_check_within_thirty_minutes_checks_nothing_witness :
  let clk := Datetime.ticking_clock in
  let b := Parliament.init clk in
  Parliament.drift_check clk b
  = Py.Returns true
      (Parliament.Brain (Parliament.hashes b) (Parliament.frozen b)
         (Parliament.last_drift b) (Parliament.arms b) (S (Parliament.ticks b))).
Proof.
  intros clk b.
  apply (drift_check_within_thirty_minutes_checks_nothing clk b).
  vm_compute. discriminate.
Defined.

Lemma watch_loop_never_stops_witness :
  let clk := Datetime.ticking_clock in
  let w := We333.init clk in
  exists w',
    We333.run_loop clk 3 w = Py.Returns tt w'
    /\ We333.frozen w' = false
    /\ (We333.ticks w + 2 * 3 <= We333.ticks w')%nat.
Proof.
  intros clk w.
  apply (watch_loop_never_stops clk 3 w); reflexivity.
Defined.

Lemma gather_reports_and_marks_every_ready_arm_witness :
  let clk := Datetime.ticking_clock in
  let w := We333.init clk in
  exists our_intelligence w',
    We333.collaborative_gather clk w = Py.Returns our_intelligence w'
    /\ We333.no_failure w w'
    /\ We333.reported our_intelligence w'
    /\ forall arm_name a,
         Py.lookup arm_name (We333.arms w) = Some a -> We333.status a = "ready" ->
         Py.has_key arm_name our_intelligence = true.
Proof.
  intros clk w.
  apply (gather_reports_and_marks_every_ready_arm clk w). reflexivity.
Defined.




(** * Escalation past the third failure *)

Section Escalation.
Import Py Datetime.
Variable clk : clock.



End Escalation.


(** * Exceptions of the stage functions *)

Section RaisesOnly.
Import Py.
Context {S : Type} (P : exn -> Prop).






End RaisesOnly.

Section StageExceptions.
Import Py Datetime Journalism SHA256Verifier.
Variable clk : clock.
Implicit Types (p : pipeline) (story analysis item publication : dict).






End StageExceptions.

Section PipelineClaims.
Import Py Datetime Journalism SHA256Verifier.
Variable clk : clock.
Implicit Types (p : pipeline) (story analysis item publication : dict).





End PipelineClaims.



